(** * The in-memory fallback collection of [src/backend/database.py]

    A shallow embedding of [MockCollection] (the dictionary-backed stand-in
    used when MongoDB is unreachable), of [init_database] and of the seed
    catalogs, followed by the properties of these operations.

    Modelling conventions.
    - Python values are dynamically typed: [value] has [None], integers,
      strings, lists and dictionaries, which is all the program's data uses
      (booleans and floats are left out).  A string is a sequence of
      characters, each an 8-bit [ascii]; strings are ordered character by
      character, as Python orders them by code point.
    - A Python [dict] keeps insertion order: it is an association list, read
      at the first binding of a key; assigning to a present key keeps its
      position, assigning to a fresh key appends it.
    - An operation that can raise returns a [result]; an operation that
      mutates the storage also returns the storage it leaves behind, whether
      it raised or not.
    - Stored documents are values: two stored documents never share a
      mutable list or dictionary (as is the case for everything
      [init_database] inserts). *)

From Stdlib Require Import List String Ascii ZArith Bool Lia Sorted Permutation.
From Stdlib Require OrderedTypeEx.
Import ListNotations.
Local Open Scope string_scope.
Local Open Scope list_scope.

(** ** Python values *)

#[local] Set Warnings "-register-all".

(** Hashable values: what may key a [dict] or sit in a [set]. *)
Inductive key : Type :=
| KNone
| KInt (z : Z)
| KStr (s : string).

Inductive value : Type :=
| VNone
| VInt (z : Z)
| VStr (s : string)
| VList (xs : list value)
| VDict (kvs : list (key * value)).

(** A dictionary object, and the storage dictionary of a collection
    ([_in_memory_activities], [_in_memory_teachers]): identity -> document. *)
Definition dict : Type := list (key * value).
Definition storage : Type := list (key * dict).

(** The exceptions the modelled code can raise. *)
Inductive exn : Type := KeyError | TypeError | AttributeError | ValueError.

Inductive result (A : Type) : Type :=
| Ok (a : A)
| Raise (e : exn).
Arguments Ok {A} a.
Arguments Raise {A} e.

Definition bind {A B : Type} (r : result A) (k : A -> result B) : result B :=
  match r with
  | Ok a => k a
  | Raise e => Raise e
  end.

Notation "x <- e ;; k" := (bind e (fun x => k))
  (at level 61, e at next level, right associativity).

(** ** Dictionaries *)

Definition key_eqb (a b : key) : bool :=
  match a, b with
  | KNone, KNone => true
  | KInt x, KInt y => Z.eqb x y
  | KStr x, KStr y => String.eqb x y
  | _, _ => false
  end.

Definition key_value (k : key) : value :=
  match k with
  | KNone => VNone
  | KInt z => VInt z
  | KStr s => VStr s
  end.

(** [hash(v)] succeeds exactly on [None], integers and strings. *)
Definition as_key (v : value) : option key :=
  match v with
  | VNone => Some KNone
  | VInt z => Some (KInt z)
  | VStr s => Some (KStr s)
  | VList _ | VDict _ => None
  end.

Section Dict.
Context {V : Type}.

(** [d.get(k)] as an option. *)
Fixpoint dict_get (k : key) (d : list (key * V)) : option V :=
  match d with
  | [] => None
  | (k', v) :: rest => if key_eqb k k' then Some v else dict_get k rest
  end.

(** [k in d]. *)
Definition dict_mem (k : key) (d : list (key * V)) : bool :=
  match dict_get k d with
  | Some _ => true
  | None => false
  end.

(** [d[k] = v]. *)
Fixpoint dict_set (k : key) (v : V) (d : list (key * V)) : list (key * V) :=
  match d with
  | [] => [(k, v)]
  | (k', v') :: rest =>
      if key_eqb k k' then (k', v) :: rest else (k', v') :: dict_set k v rest
  end.

(** [d.update(other)] for a dictionary [other], and [{**d, **other}]. *)
Definition dict_merge (d other : list (key * V)) : list (key * V) :=
  fold_left (fun acc kv => dict_set (fst kv) (snd kv) acc) other d.
End Dict.

(** [d.get(k, default)]. *)
Definition dict_get_default (k : key) (default : value) (d : dict) : value :=
  match dict_get k d with
  | Some v => v
  | None => default
  end.

(** ** The Python operations the collection uses *)

(** [bool(v)]. *)
Definition truthy (v : value) : bool :=
  match v with
  | VNone => false
  | VInt z => negb (Z.eqb z 0)
  | VStr s => negb (String.eqb s "")
  | VList xs => match xs with [] => false | _ => true end
  | VDict kvs => match kvs with [] => false | _ => true end
  end.

(** [a == b]: structural, except that dictionaries compare as mappings,
    whatever their insertion order. *)
Fixpoint py_eq (a b : value) {struct a} : bool :=
  match a, b with
  | VNone, VNone => true
  | VInt x, VInt y => Z.eqb x y
  | VStr x, VStr y => String.eqb x y
  | VList xs, VList ys =>
      (fix go (xs ys : list value) {struct xs} : bool :=
         match xs, ys with
         | [], [] => true
         | x :: xs', y :: ys' => py_eq x y && go xs' ys'
         | _, _ => false
         end) xs ys
  | VDict d1, VDict d2 =>
      Nat.eqb (List.length d1) (List.length d2)
      && (fix go (d : list (key * value)) {struct d} : bool :=
            match d with
            | [] => true
            | (k, v) :: d' =>
                match dict_get k d2 with
                | Some v' => py_eq v v'
                | None => false
                end && go d'
            end) d1
  | _, _ => false
  end.

(** [needle in hay] for two strings: [needle] occurs as a substring. *)
Fixpoint str_contains (needle hay : string) {struct hay} : bool :=
  String.prefix needle hay
  || match hay with
     | EmptyString => false
     | String _ hay' => str_contains needle hay'
     end.

(** The characters of a string, each as a one-character string. *)
Fixpoint str_chars (s : string) : list value :=
  match s with
  | EmptyString => []
  | String c s' => VStr (String c EmptyString) :: str_chars s'
  end.

(** [x in container]. *)
Definition py_contains (x container : value) : result bool :=
  match container with
  | VDict d =>
      match as_key x with
      | Some k => Ok (dict_mem k d)
      | None => Raise TypeError
      end
  | VList xs => Ok (existsb (fun item => py_eq item x) xs)
  | VStr hay =>
      match x with
      | VStr needle => Ok (str_contains needle hay)
      | _ => Raise TypeError
      end
  | VNone | VInt _ => Raise TypeError
  end.

(** [container[name]] for a string subscript [name]: a dictionary is read
    at that key ([KeyError] when it is missing); a list or a string refuses
    a string index, [None] and integers are not subscriptable. *)
Definition py_getitem (container : value) (name : string) : result value :=
  match container with
  | VDict d =>
      match dict_get (KStr name) d with
      | Some v => Ok v
      | None => Raise KeyError
      end
  | VNone | VInt _ | VStr _ | VList _ => Raise TypeError
  end.

(** [obj.get(name, default)]: only dictionaries have a [get]. *)
Definition py_get (obj : value) (name : string) (default : value) : result value :=
  match obj with
  | VDict d => Ok (dict_get_default (KStr name) default d)
  | VNone | VInt _ | VStr _ | VList _ => Raise AttributeError
  end.

(** [obj.items()]: only dictionaries have one. *)
Definition py_items (obj : value) : result (list (key * value)) :=
  match obj with
  | VDict d => Ok d
  | VNone | VInt _ | VStr _ | VList _ => Raise AttributeError
  end.

(** [iter(v)], run to the end: the elements of a list, the characters of a
    string, the keys of a dictionary. *)
Definition py_iter (v : value) : result (list value) :=
  match v with
  | VList xs => Ok xs
  | VStr s => Ok (str_chars s)
  | VDict d => Ok (map (fun kv => key_value (fst kv)) d)
  | VNone | VInt _ => Raise TypeError
  end.

(** [a < b]: integers by value, strings character by character, lists
    lexicographically (at the first position where the elements differ the
    elements themselves are compared); anything else is a [TypeError]. *)
Fixpoint py_lt (a b : value) {struct a} : result bool :=
  match a, b with
  | VInt x, VInt y => Ok (Z.ltb x y)
  | VStr x, VStr y => Ok (String.ltb x y)
  | VList xs, VList ys =>
      (fix go (xs ys : list value) {struct xs} : result bool :=
         match xs, ys with
         | [], [] => Ok false
         | [], _ :: _ => Ok true
         | _ :: _, [] => Ok false
         | x :: xs', y :: ys' => if py_eq x y then go xs' ys' else py_lt x y
         end) xs ys
  | _, _ => Raise TypeError
  end.

(** [a > b] is [b < a] on these types. *)
Definition py_gt (a b : value) : result bool := py_lt b a.

(** [any(day in container for day in days)], left to right, stopping at the
    first hit. *)
Fixpoint py_any_in (days : list value) (container : value) : result bool :=
  match days with
  | [] => Ok false
  | day :: rest =>
      hit <- py_contains day container ;;
      if hit then Ok true else py_any_in rest container
  end.

(** [xs.remove(x)]: drops the first element equal to [x]; [None] stands for
    the [ValueError] of a list that has none. *)
Fixpoint list_remove (x : value) (xs : list value) : option (list value) :=
  match xs with
  | [] => None
  | item :: rest =>
      if py_eq item x then Some rest
      else match list_remove x rest with
           | Some rest' => Some (item :: rest')
           | None => None
           end
  end.

(** [hash(v)], as the dictionary and set operations need it. *)
Definition hash_key (v : value) : result key :=
  match as_key v with
  | Some k => Ok k
  | None => Raise TypeError
  end.

(** [a < b] on hashable values. *)
Definition key_lt (a b : key) : result bool := py_lt (key_value a) (key_value b).

(** [sorted(s)] for a set [s], given as the list of its (distinct) elements.
    Whatever the algorithm, a comparison sort returns the one increasing
    arrangement when every pair compares, and raises the [TypeError] of [<]
    as soon as two elements cannot be compared; insertion does the same. *)
Fixpoint sorted_insert (x : key) (sorted : list key) : result (list key) :=
  match sorted with
  | [] => Ok [x]
  | y :: rest =>
      lt <- key_lt x y ;;
      if lt then Ok (x :: y :: rest)
      else (rest' <- sorted_insert x rest ;; Ok (y :: rest'))
  end.

Fixpoint py_sorted (elems : list key) : result (list key) :=
  match elems with
  | [] => Ok []
  | x :: rest => sorted' <- py_sorted rest ;; sorted_insert x sorted'
  end.

(** [s.add(k)] on a set given as a duplicate-free list. *)
Definition set_add (k : key) (s : list key) : list key :=
  if existsb (key_eqb k) s then s else s ++ [k].

(** [s.update(iterable)]: every element is hashed and added. *)
Fixpoint set_add_all (elems : list value) (s : list key) : result (list key) :=
  match elems with
  | [] => Ok s
  | e :: rest => k <- hash_key e ;; set_add_all rest (set_add k s)
  end.

Definition set_update (s : list key) (iterable : value) : result (list key) :=
  elems <- py_iter iterable ;; set_add_all elems s.

(** ** Mutation: a state that survives an exception *)

Definition stateful (S A : Type) : Type := S -> result A * S.

Definition sret {S A : Type} (a : A) : stateful S A := fun s => (Ok a, s).

Definition lift {S A : Type} (r : result A) : stateful S A := fun s => (r, s).

Definition sbind {S A B : Type} (m : stateful S A) (k : A -> stateful S B)
  : stateful S B :=
  fun s =>
    match m s with
    | (Ok a, s') => k a s'
    | (Raise e, s') => (Raise e, s')
    end.

Notation "x <~ e ;; k" := (sbind e (fun x => k))
  (at level 61, e at next level, right associativity).

(** [d.update(other)] on the dictionary in the state: a dictionary is merged
    in; any other iterable must yield pairs, each set in turn (what was set
    before a bad element stays set). *)
Fixpoint update_pairs (elems : list value) : stateful dict unit :=
  match elems with
  | [] => sret tt
  | e :: rest =>
      fun d =>
        match py_iter e with
        | Raise _ => (Raise TypeError, d)
        | Ok [k; v] =>
            match as_key k with
            | Some k' => update_pairs rest (dict_set k' v d)
            | None => (Raise TypeError, d)
            end
        | Ok _ => (Raise ValueError, d)
        end
  end.

Definition dict_update (other : value) : stateful dict unit :=
  match other with
  | VDict o => fun d => (Ok tt, dict_merge d o)
  | VList elems => update_pairs elems
  | VStr s => update_pairs (str_chars s)
  | VNone | VInt _ => lift (Raise TypeError)
  end.

(** ** [MockCollection]

    [self] is the storage dictionary the collection was built on. *)

(** The object [update_one] returns. *)
Record MockResult : Type := { modified_count : Z }.

Module MockCollection.

Definition count_documents (query : value) (self : storage) : Z :=
  Z.of_nat (List.length self).

(** [doc_id = document["_id"]; self.storage[doc_id] = document].  Only a
    dictionary gets past the subscription. *)
Definition insert_one (document : value) : stateful storage unit :=
  doc_id <~ lift (py_getitem document "_id") ;;
  k <~ lift (hash_key doc_id) ;;
  match document with
  | VDict d => fun self => (Ok tt, dict_set k d self)
  | VNone | VInt _ | VStr _ | VList _ => lift (Raise TypeError)
  end.

(** Returns the stored document, or [None]. *)
Definition find_one (query : value) (self : storage) : result (option dict) :=
  if negb (truthy query) then Ok None
  else
    doc_id <- py_get query "_id" VNone ;;
    k <- hash_key doc_id ;;
    Ok (dict_get k self).

(** [result_doc = dict(doc); result_doc['_id'] = key]. *)
Definition with_id (entry : key * dict) : value :=
  VDict (dict_set (KStr "_id") (key_value (fst entry)) (snd entry)).

(** One turn of the loop over [query.items()]: [Ok false] is
    [matches = False; break], [Ok true] lets the loop go on. *)
Definition check_condition (doc : dict) (condition_key : key) (condition : value)
  : result bool :=
  if key_eqb condition_key (KStr "schedule_details.days") then
    has_in <- py_contains (VStr "$in") condition ;;
    if has_in then
      target_days <- py_getitem condition "$in" ;;
      doc_days <- py_get (dict_get_default (KStr "schedule_details") (VDict []) doc)
                         "days" (VList []) ;;
      targets <- py_iter target_days ;;
      hit <- py_any_in targets doc_days ;;
      Ok hit
    else Ok true
  else if key_eqb condition_key (KStr "schedule_details.start_time") then
    has_gte <- py_contains (VStr "$gte") condition ;;
    if has_gte then
      doc_start <- py_get (dict_get_default (KStr "schedule_details") (VDict []) doc)
                          "start_time" (VStr "00:00") ;;
      bound <- py_getitem condition "$gte" ;;
      early <- py_lt doc_start bound ;;
      Ok (negb early)
    else Ok true
  else if key_eqb condition_key (KStr "schedule_details.end_time") then
    has_lte <- py_contains (VStr "$lte") condition ;;
    if has_lte then
      doc_end <- py_get (dict_get_default (KStr "schedule_details") (VDict []) doc)
                        "end_time" (VStr "23:59") ;;
      bound <- py_getitem condition "$lte" ;;
      late <- py_gt doc_end bound ;;
      Ok (negb late)
    else Ok true
  else Ok true.

(** The loop over the query's conditions: the final value of [matches]. *)
Fixpoint doc_matches (doc : dict) (conditions : list (key * value)) : result bool :=
  match conditions with
  | [] => Ok true
  | (condition_key, condition) :: rest =>
      go_on <- check_condition doc condition_key condition ;;
      if go_on then doc_matches doc rest else Ok false
  end.

(** The loop over [self.storage.items()] of the filtered branch. *)
Fixpoint find_filtered (query : value) (entries : storage) : result (list value) :=
  match entries with
  | [] => Ok []
  | (key, doc) :: rest =>
      conditions <- py_items query ;;
      matches <- doc_matches doc conditions ;;
      results <- find_filtered query rest ;;
      Ok (if matches then with_id (key, doc) :: results else results)
  end.

Definition find (query : value) (self : storage) : result (list value) :=
  if negb (truthy query) then Ok (map with_id self)
  else find_filtered query self.

(** The loop of [aggregate]: [days] is the set built so far. *)
Fixpoint collect_days (docs : list dict) (days : list key) : result (list key) :=
  match docs with
  | [] => Ok days
  | doc :: rest =>
      schedule_days <- py_get (dict_get_default (KStr "schedule_details") (VDict []) doc)
                              "days" (VList []) ;;
      days' <- set_update days schedule_days ;;
      collect_days rest days'
  end.

Definition aggregate (pipeline : value) (self : storage) : result (list value) :=
  days <- collect_days (map snd self) [] ;;
  sorted_days <- py_sorted days ;;
  Ok (map (fun day => VDict [(KStr "_id", key_value day)]) sorted_days).

(** The [$push] loop, on the stored document. *)
Fixpoint push_items (items : list (key * value)) : stateful dict unit :=
  match items with
  | [] => sret tt
  | (field, v) :: rest =>
      _ <~ (fun doc =>
              (Ok tt, if dict_mem field doc then doc
                      else dict_set field (VList []) doc)) ;;
      _ <~ (fun doc =>
              match dict_get field doc with
              | Some (VList xs) => (Ok tt, dict_set field (VList (xs ++ [v])) doc)
              | Some _ => (Raise AttributeError, doc)
              | None => (Raise KeyError, doc)
              end) ;;
      push_items rest
  end.

(** The [$pull] loop; the [ValueError] of [remove] is swallowed. *)
Fixpoint pull_items (items : list (key * value)) : stateful dict unit :=
  match items with
  | [] => sret tt
  | (field, v) :: rest =>
      _ <~ (fun doc =>
              match dict_get field doc with
              | None => (Ok tt, doc)
              | Some (VList xs) =>
                  match list_remove v xs with
                  | Some xs' => (Ok tt, dict_set field (VList xs') doc)
                  | None => (Ok tt, doc)
                  end
              | Some _ => (Raise AttributeError, doc)
              end) ;;
      pull_items rest
  end.

(** The [if "$set" ... elif "$push" ... elif "$pull"] chain, on the stored
    document. *)
Definition apply_update (update : value) : stateful dict unit :=
  has_set <~ lift (py_contains (VStr "$set") update) ;;
  if has_set then
    payload <~ lift (py_getitem update "$set") ;;
    dict_update payload
  else
    has_push <~ lift (py_contains (VStr "$push") update) ;;
    if has_push then
      payload <~ lift (py_getitem update "$push") ;;
      items <~ lift (py_items payload) ;;
      push_items items
    else
      has_pull <~ lift (py_contains (VStr "$pull") update) ;;
      if has_pull then
        payload <~ lift (py_getitem update "$pull") ;;
        items <~ lift (py_items payload) ;;
        pull_items items
      else sret tt.

Definition update_one (query update : value) : stateful storage MockResult :=
  doc_id <~ lift (py_get query "_id" VNone) ;;
  k <~ lift (hash_key doc_id) ;;
  fun self =>
    match dict_get k self with
    | Some doc =>
        let (r, doc') := apply_update update doc in
        (_ <- r ;; Ok {| modified_count := 1 |}, dict_set k doc' self)
    | None => (Ok {| modified_count := 0 |}, self)
    end.

End MockCollection.

(** ** The seed catalogs and [init_database] *)

(** The shape every literal entry of [initial_activities] has. *)
Definition activity (description schedule : string) (days : list string)
  (start_time end_time : string) (max_participants : Z)
  (participants : list string) : dict :=
  [ (KStr "description", VStr description);
    (KStr "schedule", VStr schedule);
    (KStr "schedule_details",
      VDict [ (KStr "days", VList (map VStr days));
              (KStr "start_time", VStr start_time);
              (KStr "end_time", VStr end_time) ]);
    (KStr "max_participants", VInt max_participants);
    (KStr "participants", VList (map VStr participants)) ].

Definition initial_activities : list (key * dict) :=
  [ (KStr "Chess Club",
      activity "Learn strategies and compete in chess tournaments"
        "Mondays and Fridays, 3:15 PM - 4:45 PM"
        ["Monday"; "Friday"] "15:15" "16:45" 12
        ["michael@mergington.edu"; "daniel@mergington.edu"]);
    (KStr "Programming Class",
      activity "Learn programming fundamentals and build software projects"
        "Tuesdays and Thursdays, 7:00 AM - 8:00 AM"
        ["Tuesday"; "Thursday"] "07:00" "08:00" 20
        ["emma@mergington.edu"; "sophia@mergington.edu"]);
    (KStr "Morning Fitness",
      activity "Early morning physical training and exercises"
        "Mondays, Wednesdays, Fridays, 6:30 AM - 7:45 AM"
        ["Monday"; "Wednesday"; "Friday"] "06:30" "07:45" 30
        ["john@mergington.edu"; "olivia@mergington.edu"]);
    (KStr "Soccer Team",
      activity "Join the school soccer team and compete in matches"
        "Tuesdays and Thursdays, 3:30 PM - 5:30 PM"
        ["Tuesday"; "Thursday"] "15:30" "17:30" 22
        ["liam@mergington.edu"; "noah@mergington.edu"]);
    (KStr "Basketball Team",
      activity "Practice and compete in basketball tournaments"
        "Wednesdays and Fridays, 3:15 PM - 5:00 PM"
        ["Wednesday"; "Friday"] "15:15" "17:00" 15
        ["ava@mergington.edu"; "mia@mergington.edu"]);
    (KStr "Art Club",
      activity "Explore various art techniques and create masterpieces"
        "Thursdays, 3:15 PM - 5:00 PM"
        ["Thursday"] "15:15" "17:00" 15
        ["amelia@mergington.edu"; "harper@mergington.edu"]);
    (KStr "Drama Club",
      activity "Act, direct, and produce plays and performances"
        "Mondays and Wednesdays, 3:30 PM - 5:30 PM"
        ["Monday"; "Wednesday"] "15:30" "17:30" 20
        ["ella@mergington.edu"; "scarlett@mergington.edu"]);
    (KStr "Math Club",
      activity "Solve challenging problems and prepare for math competitions"
        "Tuesdays, 7:15 AM - 8:00 AM"
        ["Tuesday"] "07:15" "08:00" 10
        ["james@mergington.edu"; "benjamin@mergington.edu"]);
    (KStr "Debate Team",
      activity "Develop public speaking and argumentation skills"
        "Fridays, 3:30 PM - 5:30 PM"
        ["Friday"] "15:30" "17:30" 12
        ["charlotte@mergington.edu"; "amelia@mergington.edu"]);
    (KStr "Weekend Robotics Workshop",
      activity "Build and program robots in our state-of-the-art workshop"
        "Saturdays, 10:00 AM - 2:00 PM"
        ["Saturday"] "10:00" "14:00" 15
        ["ethan@mergington.edu"; "oliver@mergington.edu"]);
    (KStr "Science Olympiad",
      activity "Weekend science competition preparation for regional and state events"
        "Saturdays, 1:00 PM - 4:00 PM"
        ["Saturday"] "13:00" "16:00" 18
        ["isabella@mergington.edu"; "lucas@mergington.edu"]);
    (KStr "Sunday Chess Tournament",
      activity "Weekly tournament for serious chess players with rankings"
        "Sundays, 2:00 PM - 5:00 PM"
        ["Sunday"] "14:00" "17:00" 16
        ["william@mergington.edu"; "jacob@mergington.edu"]);
    (KStr "Manga Maniacs",
      activity "Explore the fantastic stories of the most interesting characters from Japanese Manga (graphic novels)."
        "Tuesdays, 7:00 PM - 8:30 PM"
        ["Tuesday"] "19:00" "20:30" 15
        []) ].

(** The two module-level collections. *)
Record database : Type := {
  activities_collection : storage;
  teachers_collection : storage
}.

Definition on_activities {A : Type} (m : stateful storage A) : stateful database A :=
  fun db =>
    let (r, s) := m (activities_collection db) in
    (r, {| activities_collection := s; teachers_collection := teachers_collection db |}).

Definition on_teachers {A : Type} (m : stateful storage A) : stateful database A :=
  fun db =>
    let (r, s) := m (teachers_collection db) in
    (r, {| activities_collection := activities_collection db; teachers_collection := s |}).

Section Bootstrap.

(** Argon2 hashing, a salted library call: any function to strings. *)
Variable hash_password : string -> string.

Definition teacher (username display_name password role : string) : dict :=
  [ (KStr "username", VStr username);
    (KStr "display_name", VStr display_name);
    (KStr "password", VStr (hash_password password));
    (KStr "role", VStr role) ].

Definition initial_teachers : list dict :=
  [ teacher "mrodriguez" "Ms. Rodriguez" "art123" "teacher";
    teacher "mchen" "Mr. Chen" "chess456" "teacher";
    teacher "principal" "Principal Martinez" "admin789" "admin" ].

(** [for name, details in initial_activities.items():
       activities_collection.insert_one({"_id": name, **details})]. *)
Fixpoint seed_activities (items : list (key * dict)) : stateful storage unit :=
  match items with
  | [] => sret tt
  | (name, details) :: rest =>
      _ <~ MockCollection.insert_one
             (VDict (dict_merge [(KStr "_id", key_value name)] details)) ;;
      seed_activities rest
  end.

(** [for teacher in initial_teachers:
       teachers_collection.insert_one({"_id": teacher["username"], **teacher})]. *)
Fixpoint seed_teachers (teachers : list dict) : stateful storage unit :=
  match teachers with
  | [] => sret tt
  | teacher :: rest =>
      username <~ lift (py_getitem (VDict teacher) "username") ;;
      _ <~ MockCollection.insert_one
             (VDict (dict_merge [(KStr "_id", username)] teacher)) ;;
      seed_teachers rest
  end.

Definition init_database : stateful database unit :=
  _ <~ on_activities
         (fun self =>
            if Z.eqb (MockCollection.count_documents (VDict []) self) 0
            then seed_activities initial_activities self
            else (Ok tt, self)) ;;
  on_teachers
    (fun self =>
       if Z.eqb (MockCollection.count_documents (VDict []) self) 0
       then seed_teachers initial_teachers self
       else (Ok tt, self)).

End Bootstrap.

(** ** Vocabulary of the properties *)

(** What a reader of the schedule finds in a document, with the defaults of
    the chained [get]s; [None] where the stored value has another type than
    the data model gives it. *)
Definition schedule_details_of (doc : dict) : option dict :=
  match dict_get (KStr "schedule_details") doc with
  | None => Some []
  | Some (VDict details) => Some details
  | Some _ => None
  end.

Definition days_of (doc : dict) : option (list value) :=
  match schedule_details_of doc with
  | Some details =>
      match dict_get (KStr "days") details with
      | None => Some []
      | Some (VList days) => Some days
      | Some _ => None
      end
  | None => None
  end.

Definition time_of (field default : string) (doc : dict) : option string :=
  match schedule_details_of doc with
  | Some details =>
      match dict_get (KStr field) details with
      | None => Some default
      | Some (VStr time) => Some time
      | Some _ => None
      end
  | None => None
  end.

Definition start_time_of : dict -> option string := time_of "start_time" "00:00".
Definition end_time_of : dict -> option string := time_of "end_time" "23:59".

Fixpoint strings_of (vs : list value) : option (list string) :=
  match vs with
  | [] => Some []
  | VStr s :: rest => option_map (cons s) (strings_of rest)
  | _ :: _ => None
  end.

(** The weekday names of a document, when its days are a list of strings. *)
Definition day_names_of (doc : dict) : option (list string) :=
  match days_of doc with
  | Some days => strings_of days
  | None => None
  end.

(** The three conditions [find] recognizes. *)
Inductive condition : Type :=
| DaysIn (targets : list value)
| StartGte (bound : string)
| EndLte (bound : string).

(** A query entry that carries a recognized condition. *)
Inductive denotes : key * value -> condition -> Prop :=
| denotes_days (c : dict) (targets : list value) :
    dict_get (KStr "$in") c = Some (VList targets) ->
    denotes (KStr "schedule_details.days", VDict c) (DaysIn targets)
| denotes_start (c : dict) (bound : string) :
    dict_get (KStr "$gte") c = Some (VStr bound) ->
    denotes (KStr "schedule_details.start_time", VDict c) (StartGte bound)
| denotes_end (c : dict) (bound : string) :
    dict_get (KStr "$lte") c = Some (VStr bound) ->
    denotes (KStr "schedule_details.end_time", VDict c) (EndLte bound).

(** The document stores, under the field a condition reads, a value of the
    type the data model gives that field. *)
Definition readable (doc : dict) (c : condition) : Prop :=
  match c with
  | DaysIn _ => days_of doc <> None
  | StartGte _ => start_time_of doc <> None
  | EndLte _ => end_time_of doc <> None
  end.

(** The specification's reading of a condition: the days intersect the
    targets; the start time is at or after the bound; the end time is at or
    before the bound. *)
Definition satisfies (doc : dict) (c : condition) : bool :=
  match c with
  | DaysIn targets =>
      match days_of doc with
      | Some days => existsb (fun t => existsb (fun d => py_eq d t) days) targets
      | None => false
      end
  | StartGte bound =>
      match start_time_of doc with
      | Some start => String.leb bound start
      | None => false
      end
  | EndLte bound =>
      match end_time_of doc with
      | Some stop => String.leb stop bound
      | None => false
      end
  end.

(** A stored entry satisfies all the conditions. *)
Definition selected (cs : list condition) (entry : key * dict) : bool :=
  forallb (satisfies (snd entry)) cs.

(** The operator [find] looks for under each of its three field paths. *)
Definition recognized_operator (path : key) : option string :=
  if key_eqb path (KStr "schedule_details.days") then Some "$in"
  else if key_eqb path (KStr "schedule_details.start_time") then Some "$gte"
  else if key_eqb path (KStr "schedule_details.end_time") then Some "$lte"
  else None.

(** A condition that can hold operators and does not hold [op]: a mapping
    without the key [op], a sequence without the element [op], a string in
    which [op] does not occur.  [None] and numbers hold nothing at all. *)
Definition lacks_operator (op : string) (c : value) : bool :=
  match c with
  | VDict d => negb (dict_mem (KStr op) d)
  | VList xs => negb (existsb (fun item => py_eq item (VStr op)) xs)
  | VStr s => negb (str_contains op s)
  | VNone | VInt _ => false
  end.

(** A query entry [find] has no use for: any condition under another path,
    or, under a recognized path, a mapping, sequence or string that does
    not hold that path's operator. *)
Definition ignored_condition (entry : key * value) : bool :=
  match recognized_operator (fst entry) with
  | None => true
  | Some op => lacks_operator op (snd entry)
  end.

(** Python dictionaries bind a key once. *)
Fixpoint unique_keys {V : Type} (d : list (key * V)) : bool :=
  match d with
  | [] => true
  | (k, _) :: rest => negb (dict_mem k rest) && unique_keys rest
  end.

(** A value all of whose dictionaries bind each key once. *)
Fixpoint wf_value (v : value) : bool :=
  match v with
  | VNone | VInt _ | VStr _ => true
  | VList xs => forallb wf_value xs
  | VDict kvs =>
      unique_keys kvs
      && (fix go (d : list (key * value)) : bool :=
            match d with
            | [] => true
            | (_, x) :: d' => wf_value x && go d'
            end) kvs
  end.

(** The sequence stored at [field] of the document stored under [id]. *)
Definition sequence_at (field : string) (id : key) (s : storage) : option (list value) :=
  match dict_get id s with
  | Some doc =>
      match dict_get (KStr field) doc with
      | Some (VList xs) => Some xs
      | _ => None
      end
  | None => None
  end.

(** [field] is missing from the document or holds a list. *)
Definition list_or_absent (doc : dict) (item : key * value) : bool :=
  match dict_get (fst item) doc with
  | None | Some (VList _) => true
  | Some _ => false
  end.

(** An update whose selected operator has a payload of the expected shape
    for the document it is applied to. *)
Definition well_shaped_update (update : dict) (doc : dict) : bool :=
  match dict_get (KStr "$set") update with
  | Some (VDict _) => true
  | Some _ => false
  | None =>
      match dict_get (KStr "$push") update with
      | Some (VDict items) => forallb (list_or_absent doc) items
      | Some _ => false
      | None =>
          match dict_get (KStr "$pull") update with
          | Some (VDict items) => forallb (list_or_absent doc) items
          | Some _ => false
          | None => true
          end
      end
  end.

(** The query [{"_id": id}]. *)
Definition by_id (id : key) : value := VDict [(KStr "_id", key_value id)].

(** The update [{op: {field: v}}]. *)
Definition update_field (op field : string) (v : value) : value :=
  VDict [(KStr op, VDict [(KStr field, v)])].

(** The activities collection right after [init_database] seeded it. *)
Definition seeded_activities : storage :=
  snd (seed_activities initial_activities []).

(** The teachers collection right after [init_database] seeded it. *)
Definition seeded_teachers (hash_password : string -> string) : storage :=
  snd (seed_teachers (initial_teachers hash_password) []).

(** Strings in increasing order, none twice. *)
Definition string_lt (a b : string) : Prop := String.ltb a b = true.

(** The record [aggregate] returns for a day. *)
Definition day_record (day : string) : value := VDict [(KStr "_id", VStr day)].

(** The two documents and the query of the AND example. *)
Definition afternoon_doc : dict :=
  [ (KStr "_id", VStr "afternoon");
    (KStr "schedule_details",
      VDict [ (KStr "days", VList [VStr "Monday"; VStr "Friday"]);
              (KStr "start_time", VStr "15:15");
              (KStr "end_time", VStr "16:45") ]) ].

Definition morning_doc : dict :=
  [ (KStr "_id", VStr "morning");
    (KStr "schedule_details",
      VDict [ (KStr "days", VList [VStr "Tuesday"]);
              (KStr "start_time", VStr "07:00");
              (KStr "end_time", VStr "08:00") ]) ].

Definition two_documents : storage :=
  [ (KStr "afternoon", afternoon_doc); (KStr "morning", morning_doc) ].

Definition friday_afternoon_query : list (key * value) :=
  [ (KStr "schedule_details.days", VDict [(KStr "$in", VList [VStr "Friday"])]);
    (KStr "schedule_details.start_time", VDict [(KStr "$gte", VStr "12:00")]) ].

(** The identities a storage holds, in its order. *)
Definition identities (self : storage) : list key := map fst self.

(** Every document is stored under the identity its own ["_id"] names. *)
Definition self_identified (self : storage) : Prop :=
  Forall (fun entry =>
            dict_get (KStr "_id") (snd entry) = Some (key_value (fst entry)))
         self.

(** The query [{"schedule_details.days": {"$in": [day]}}]. *)
Definition day_query (day : string) : value :=
  VDict [(KStr "schedule_details.days", VDict [(KStr "$in", VList [VStr day])])].

(** * Properties *)

Import MockCollection.

(** ** Keys and dictionaries *)

Lemma key_eqb_eq (a b : key) : key_eqb a b = true <-> a = b.
Proof.
  destruct a, b; simpl; split; intro H; try discriminate; try reflexivity.
  - apply Z.eqb_eq in H. now subst.
  - injection H as ->. apply Z.eqb_refl.
  - apply String.eqb_eq in H. now subst.
  - injection H as ->. apply String.eqb_refl.
Qed.

Lemma key_eqb_refl (k : key) : key_eqb k k = true.
Proof. now apply key_eqb_eq. Qed.

Lemma key_eqb_neq (a b : key) : key_eqb a b = false <-> a <> b.
Proof.
  split.
  - intros H E. apply key_eqb_eq in E. congruence.
  - intro H. destruct (key_eqb a b) eqn:E; [|reflexivity].
    apply key_eqb_eq in E. contradiction.
Qed.

Lemma as_key_value (k : key) : as_key (key_value k) = Some k.
Proof. now destruct k. Qed.

Lemma hash_key_value (k : key) : hash_key (key_value k) = Ok k.
Proof. unfold hash_key. now rewrite as_key_value. Qed.

Section DictFacts.
Context {V : Type}.
Implicit Types (d : list (key * V)) (k : key) (v : V).

Lemma dict_get_set_same d k v : dict_get k (dict_set k v d) = Some v.
Proof.
  induction d as [|[k' v'] d IH]; simpl.
  - now rewrite key_eqb_refl.
  - destruct (key_eqb k k') eqn:E; simpl; rewrite E; auto.
Qed.

Lemma dict_get_set_other d k k' v :
  k' <> k -> dict_get k' (dict_set k v d) = dict_get k' d.
Proof.
  intro N. induction d as [|[k0 v0] d IH]; simpl.
  - apply key_eqb_neq in N. now rewrite N.
  - destruct (key_eqb k k0) eqn:E; simpl.
    + apply key_eqb_eq in E. subst k0.
      apply key_eqb_neq in N. now rewrite N.
    + now rewrite IH.
Qed.

Lemma dict_set_length_present d k v v0 :
  dict_get k d = Some v0 -> List.length (dict_set k v d) = List.length d.
Proof.
  induction d as [|[k' v'] d IH]; simpl; [discriminate|].
  destruct (key_eqb k k'); simpl; auto.
Qed.

Lemma dict_set_fresh d k v :
  dict_get k d = None -> dict_set k v d = d ++ [(k, v)].
Proof.
  induction d as [|[k' v'] d IH]; simpl; [reflexivity|].
  destruct (key_eqb k k'); [discriminate|].
  intro H. now rewrite IH.
Qed.

Lemma dict_set_same_value d k v :
  dict_get k d = Some v -> dict_set k v d = d.
Proof.
  induction d as [|[k' v'] d IH]; simpl; [discriminate|].
  destruct (key_eqb k k') eqn:E.
  - now intros [= ->].
  - intro H. now rewrite IH.
Qed.

Lemma dict_set_twice d k v1 v2 :
  dict_set k v2 (dict_set k v1 d) = dict_set k v2 d.
Proof.
  induction d as [|[k' v'] d IH]; simpl.
  - now rewrite key_eqb_refl.
  - destruct (key_eqb k k') eqn:E; simpl; rewrite E; [reflexivity|].
    now rewrite IH.
Qed.

Lemma dict_mem_get d k : dict_mem k d = true <-> exists v, dict_get k d = Some v.
Proof.
  unfold dict_mem. destruct (dict_get k d) as [v|].
  - split; eauto.
  - split; [discriminate|]. now intros [v [=]].
Qed.
End DictFacts.

(** What a merged dictionary reads: the merged-in binding where there is
    one, the old binding elsewhere. *)
Lemma dict_get_merge_absent (d p : dict) (f : key) :
  dict_get f p = None -> dict_get f (dict_merge d p) = dict_get f d.
Proof.
  unfold dict_merge. revert d. induction p as [|[k v] p IH]; intros d;
    simpl; [reflexivity|].
  destruct (key_eqb f k) eqn:E; [discriminate|].
  intro H. rewrite (IH _ H). apply dict_get_set_other.
  now apply key_eqb_neq.
Qed.

Lemma dict_get_merge_present (d p : dict) (f : key) (v : value) :
  unique_keys p = true -> dict_get f p = Some v ->
  dict_get f (dict_merge d p) = Some v.
Proof.
  unfold dict_merge. revert d. induction p as [|[k x] p IH]; intros d;
    simpl; [discriminate|].
  intro Hu. apply andb_true_iff in Hu as [Hfresh Hu].
  destruct (key_eqb f k) eqn:E.
  - intros [= ->]. apply key_eqb_eq in E. subst k.
    fold (dict_merge (dict_set f v d) p).
    rewrite dict_get_merge_absent; [apply dict_get_set_same|].
    unfold dict_mem in Hfresh. now destruct (dict_get f p).
  - intro H. now apply IH.
Qed.

(** ** Duplicate identities (C8) *)

(** C8. [insert_one] of a document whose identity is already stored raises
    nothing and overwrites: afterwards the identity maps to the inserted
    document, and [count_documents] is what it was. *)
Theorem insert_one_duplicate_overwrites
  (self : storage) (document old : dict) (id : key) (q : value) :
  dict_get (KStr "_id") document = Some (key_value id) ->
  dict_get id self = Some old ->
  exists self',
    insert_one (VDict document) self = (Ok tt, self')
    /\ dict_get id self' = Some document
    /\ count_documents q self' = count_documents q self.
Proof.
  intros Hid Hold. exists (dict_set id document self).
  split; [|split].
  - unfold insert_one, sbind, lift. simpl. rewrite Hid.
    now rewrite hash_key_value.
  - apply dict_get_set_same.
  - unfold count_documents. f_equal. now apply dict_set_length_present with old.
Qed.

Lemma insert_one_duplicate_overwrites_witness :
  exists self',
    insert_one (VDict [(KStr "_id", VStr "Chess Club"); (KStr "description", VStr "new")])
      seeded_activities = (Ok tt, self')
    /\ dict_get (KStr "Chess Club") self'
       = Some [(KStr "_id", VStr "Chess Club"); (KStr "description", VStr "new")]
    /\ count_documents VNone self' = count_documents VNone seeded_activities.
Proof.
  destruct (dict_get (KStr "Chess Club") seeded_activities) as [old|] eqn:E;
    [|discriminate E].
  exact (insert_one_duplicate_overwrites seeded_activities
           [(KStr "_id", VStr "Chess Club"); (KStr "description", VStr "new")]
           old (KStr "Chess Club") VNone eq_refl E).
Defined.

(** ** Lookup by identity (C9) *)

(** C9. On any storage, empty or not, [find_one] answers [None] to a falsy
    query ([None], [{}], and the like); to a query that carries ["_id"] it
    answers what the storage holds under that identity: the stored document
    when there is one, [None] otherwise. *)
Theorem find_one_by_identity (self : storage) :
  (forall q : value, truthy q = false -> find_one q self = Ok None)
  /\ (forall (q : dict) (id : key),
        dict_get (KStr "_id") q = Some (key_value id) ->
        find_one (VDict q) self = Ok (dict_get id self)).
Proof.
  split.
  - intros q Hq. unfold find_one. now rewrite Hq.
  - intros q id Hid. unfold find_one.
    destruct q as [|entry q]; [discriminate Hid|].
    cbn [truthy negb py_get bind]. unfold dict_get_default. rewrite Hid.
    now rewrite hash_key_value.
Qed.

Lemma find_one_by_identity_witness :
  find_one (VDict []) seeded_activities = Ok None
  /\ find_one (by_id (KStr "Art Club")) seeded_activities
     = Ok (dict_get (KStr "Art Club") seeded_activities)
  /\ find_one (by_id (KStr "Knitting")) seeded_activities = Ok None.
Proof.
  destruct (find_one_by_identity seeded_activities) as [Hfalsy Hid].
  split; [|split].
  - apply Hfalsy. reflexivity.
  - apply (Hid [(KStr "_id", VStr "Art Club")] (KStr "Art Club")). reflexivity.
  - apply (Hid [(KStr "_id", VStr "Knitting")] (KStr "Knitting")). reflexivity.
Defined.

(** ** Unfiltered [find] (C7) *)

Lemma with_id_of_inserted (document : dict) (id : key) :
  dict_get (KStr "_id") document = Some (key_value id) ->
  with_id (id, document) = VDict document.
Proof.
  intro H. unfold with_id. simpl. now rewrite dict_set_same_value.
Qed.

(** C7. With an absent ([None]) or empty ([{}]) query, [find] returns every
    stored document, in the order of the storage dictionary, which is the
    order of insertion (a document inserted under a fresh identity comes
    last); each returned document is the stored one with ["_id"] set to the
    key it is stored under. *)
Theorem find_all_in_insertion_order (self : storage) :
  find VNone self = Ok (map with_id self)
  /\ find (VDict []) self = Ok (map with_id self)
  /\ Forall2
       (fun entry returned =>
          exists d, returned = VDict d
            /\ dict_get (KStr "_id") d = Some (key_value (fst entry))
            /\ forall field, field <> KStr "_id" ->
                 dict_get field d = dict_get field (snd entry))
       self (map with_id self)
  /\ (forall (document : dict) (id : key),
        dict_get (KStr "_id") document = Some (key_value id) ->
        dict_get id self = None ->
        exists self',
          insert_one (VDict document) self = (Ok tt, self')
          /\ find VNone self' = Ok (map with_id self ++ [VDict document])).
Proof.
  split; [reflexivity|]. split; [reflexivity|]. split.
  - induction self as [|[k doc] rest IH]; simpl; constructor; [|exact IH].
    exists (dict_set (KStr "_id") (key_value k) doc). split; [reflexivity|].
    split.
    + apply dict_get_set_same.
    + intros field N. now apply dict_get_set_other.
  - intros document id Hid Hfresh.
    exists (self ++ [(id, document)]). split.
    + unfold insert_one, sbind, lift. simpl. rewrite Hid, hash_key_value.
      now rewrite dict_set_fresh.
    + unfold find. simpl. rewrite map_app. simpl.
      now rewrite with_id_of_inserted.
Qed.

Lemma find_all_in_insertion_order_witness :
  exists self',
    insert_one (VDict [(KStr "_id", VStr "Knitting")]) two_documents = (Ok tt, self')
    /\ find VNone self'
       = Ok (map with_id two_documents ++ [VDict [(KStr "_id", VStr "Knitting")]]).
Proof.
  destruct (find_all_in_insertion_order two_documents) as (_ & _ & _ & Hlast).
  apply (Hlast [(KStr "_id", VStr "Knitting")] (KStr "Knitting")); reflexivity.
Defined.

(** ** [update_one]: identities and operators (C3, C10) *)

Lemma update_one_absent (q : dict) (update : value) (self : storage) (id : key) :
  dict_get (KStr "_id") q = Some (key_value id) ->
  dict_get id self = None ->
  update_one (VDict q) update self = (Ok {| modified_count := 0 |}, self).
Proof.
  intros Hid Habsent. unfold update_one, sbind, lift. simpl.
  unfold dict_get_default. rewrite Hid, hash_key_value. now rewrite Habsent.
Qed.

Lemma update_one_present (q : dict) (update : value) (self : storage)
  (id : key) (doc : dict) :
  dict_get (KStr "_id") q = Some (key_value id) ->
  dict_get id self = Some doc ->
  update_one (VDict q) update self
  = (_ <- fst (apply_update update doc) ;; Ok {| modified_count := 1 |},
     dict_set id (snd (apply_update update doc)) self).
Proof.
  intros Hid Hdoc. unfold update_one, sbind, lift. simpl.
  unfold dict_get_default. rewrite Hid, hash_key_value, Hdoc.
  now destruct (apply_update update doc).
Qed.

Lemma list_or_absent_set (doc : dict) (field : key) (xs : list value)
  (item : key * value) :
  list_or_absent doc item = true ->
  list_or_absent (dict_set field (VList xs) doc) item = true.
Proof.
  unfold list_or_absent. intro H.
  destruct (key_eqb (fst item) field) eqn:E.
  - apply key_eqb_eq in E. rewrite E. now rewrite dict_get_set_same.
  - apply key_eqb_neq in E. now rewrite dict_get_set_other.
Qed.

Lemma forallb_list_or_absent_set (doc : dict) (field : key) (xs : list value)
  (items : list (key * value)) :
  forallb (list_or_absent doc) items = true ->
  forallb (list_or_absent (dict_set field (VList xs) doc)) items = true.
Proof.
  rewrite !forallb_forall. intros H item Hin.
  apply list_or_absent_set. now apply H.
Qed.

Lemma push_items_ok (items : list (key * value)) :
  forall doc : dict,
    forallb (list_or_absent doc) items = true ->
    exists doc', push_items items doc = (Ok tt, doc').
Proof.
  induction items as [|[field v] rest IH]; intros doc Hshape.
  - now exists doc.
  - simpl in Hshape. apply andb_true_iff in Hshape as [Hfield Hrest].
    cbn [push_items]. unfold sbind, dict_mem.
    unfold list_or_absent in Hfield. simpl in Hfield.
    destruct (dict_get field doc) as [stored|] eqn:Hget.
    + rewrite Hget. destruct stored; try discriminate Hfield.
      apply IH. now apply forallb_list_or_absent_set.
    + rewrite dict_get_set_same.
      apply IH. now do 2 apply forallb_list_or_absent_set.
Qed.

Lemma pull_items_ok (items : list (key * value)) :
  forall doc : dict,
    forallb (list_or_absent doc) items = true ->
    exists doc', pull_items items doc = (Ok tt, doc').
Proof.
  induction items as [|[field v] rest IH]; intros doc Hshape.
  - now exists doc.
  - simpl in Hshape. apply andb_true_iff in Hshape as [Hfield Hrest].
    cbn [pull_items]. unfold sbind.
    unfold list_or_absent in Hfield. simpl in Hfield.
    destruct (dict_get field doc) as [stored|] eqn:Hget.
    + destruct stored; try discriminate Hfield.
      destruct (list_remove v xs) as [xs'|].
      * apply IH. now apply forallb_list_or_absent_set.
      * now apply IH.
    + now apply IH.
Qed.

Lemma apply_update_well_shaped (update doc : dict) :
  well_shaped_update update doc = true ->
  exists doc', apply_update (VDict update) doc = (Ok tt, doc').
Proof.
  unfold well_shaped_update, apply_update, sbind, lift. simpl. unfold dict_mem.
  destruct (dict_get (KStr "$set") update) as [payload|].
  { destruct payload; try discriminate. intros _. simpl. eauto. }
  destruct (dict_get (KStr "$push") update) as [payload|].
  { destruct payload; try discriminate. simpl. apply push_items_ok. }
  destruct (dict_get (KStr "$pull") update) as [payload|].
  { destruct payload; try discriminate. simpl. apply pull_items_ok. }
  intros _. unfold sret. eauto.
Qed.

(** C3 (amended). For every storage and every update, [update_one] with an
    identity that is not stored leaves the storage as it was and returns
    [modified_count = 0].  With a stored identity it either returns
    [modified_count = 1] or raises an error, and never returns [0]; it
    does return [modified_count = 1] at least whenever the selected
    operator has a payload of the expected
    shape (a dictionary for [$set]; for [$push] and [$pull] a dictionary
    whose fields are missing from the document or hold lists; or no
    operator at all). *)
Theorem update_one_modified_count (q : dict) (self : storage) (id : key) :
  dict_get (KStr "_id") q = Some (key_value id) ->
  (dict_get id self = None ->
   forall update : value,
     update_one (VDict q) update self = (Ok {| modified_count := 0 |}, self))
  /\ (forall doc : dict, dict_get id self = Some doc ->
      (forall update : value,
         (exists self' : storage,
            update_one (VDict q) update self
            = (Ok {| modified_count := 1 |}, self'))
         \/ (exists (e : exn) (self' : storage),
               update_one (VDict q) update self = (Raise e, self')))
      /\ (forall update : dict, well_shaped_update update doc = true ->
           exists self' : storage,
             update_one (VDict q) (VDict update) self
             = (Ok {| modified_count := 1 |}, self'))).
Proof.
  intro Hid. split.
  - intros Habsent update. now apply update_one_absent with id.
  - intros doc Hdoc. split.
    + intro update.
      rewrite (update_one_present q update self id doc Hid Hdoc).
      destruct (fst (apply_update update doc)) as [u|e]; simpl.
      * left. eauto.
      * right. eauto.
    + intros update Hshape.
      rewrite (update_one_present q (VDict update) self id doc Hid Hdoc).
      destruct (apply_update_well_shaped update doc Hshape) as [doc' ->].
      simpl. eauto.
Qed.

(** An identity that is not stored; a well-shaped [$push] on the Chess
    Club; and a [$push] onto its description, which is one of the two
    outcomes, the error. *)
Lemma update_one_modified_count_witness :
  update_one (by_id (KStr "Knitting")) (update_field "$set" "x" (VInt 1))
    seeded_activities
  = (Ok {| modified_count := 0 |}, seeded_activities)
  /\ (exists self',
        update_one (by_id (KStr "Chess Club"))
          (update_field "$push" "participants" (VStr "x@y.edu")) seeded_activities
        = (Ok {| modified_count := 1 |}, self'))
  /\ ((exists self' : storage,
         update_one (by_id (KStr "Chess Club"))
           (update_field "$push" "description" (VStr "x")) seeded_activities
         = (Ok {| modified_count := 1 |}, self'))
      \/ (exists (e : exn) (self' : storage),
            update_one (by_id (KStr "Chess Club"))
              (update_field "$push" "description" (VStr "x")) seeded_activities
            = (Raise e, self'))).
Proof.
  split; [|split].
  - apply (update_one_modified_count [(KStr "_id", VStr "Knitting")]
             seeded_activities (KStr "Knitting") eq_refl); reflexivity.
  - destruct (dict_get (KStr "Chess Club") seeded_activities) as [doc|] eqn:E;
      [|discriminate E].
    apply (proj2 (proj2 (update_one_modified_count
             [(KStr "_id", VStr "Chess Club")]
             seeded_activities (KStr "Chess Club") eq_refl) doc E)).
    injection E as <-. reflexivity.
  - destruct (dict_get (KStr "Chess Club") seeded_activities) as [doc|] eqn:E;
      [|discriminate E].
    apply (proj1 (proj2 (update_one_modified_count
             [(KStr "_id", VStr "Chess Club")]
             seeded_activities (KStr "Chess Club") eq_refl) doc E)).
Defined.

(** C3, as first stated, fails: the Chess Club is stored, yet pushing onto
    its ["description"], a string, raises [AttributeError] and returns no
    [modified_count] at all. *)
Lemma update_one_present_may_raise :
  dict_mem (KStr "Chess Club") seeded_activities = true
  /\ fst (update_one (by_id (KStr "Chess Club"))
            (update_field "$push" "description" (VStr "x")) seeded_activities)
     = Raise AttributeError.
Proof. split; reflexivity. Qed.

Lemma apply_update_set (update : dict) (payload : value) :
  dict_get (KStr "$set") update = Some payload ->
  apply_update (VDict update) = apply_update (VDict [(KStr "$set", payload)]).
Proof.
  intro H. unfold apply_update, sbind, lift. simpl. unfold dict_mem.
  now rewrite H.
Qed.

Lemma apply_update_push (update : dict) (payload : value) :
  dict_get (KStr "$set") update = None ->
  dict_get (KStr "$push") update = Some payload ->
  apply_update (VDict update) = apply_update (VDict [(KStr "$push", payload)]).
Proof.
  intros Hset H. unfold apply_update, sbind, lift. simpl. unfold dict_mem.
  now rewrite Hset, H.
Qed.

Lemma apply_update_pull (update : dict) (payload : value) :
  dict_get (KStr "$set") update = None ->
  dict_get (KStr "$push") update = None ->
  dict_get (KStr "$pull") update = Some payload ->
  apply_update (VDict update) = apply_update (VDict [(KStr "$pull", payload)]).
Proof.
  intros Hset Hpush H. unfold apply_update, sbind, lift. simpl.
  unfold dict_mem. now rewrite Hset, Hpush, H.
Qed.

Lemma apply_update_none (update doc : dict) :
  dict_get (KStr "$set") update = None ->
  dict_get (KStr "$push") update = None ->
  dict_get (KStr "$pull") update = None ->
  apply_update (VDict update) doc = (Ok tt, doc).
Proof.
  intros Hset Hpush Hpull. unfold apply_update, sbind, lift. simpl.
  unfold dict_mem. now rewrite Hset, Hpush, Hpull.
Qed.

Lemma update_one_same_apply (q u1 u2 : value) (self : storage) :
  apply_update u1 = apply_update u2 ->
  update_one q u1 self = update_one q u2 self.
Proof.
  intro H. unfold update_one, sbind. now rewrite H.
Qed.

(** C10. For a stored identity [update_one] applies one operator, the first
    that the update holds among [$set], [$push], [$pull], and leaves the
    others unapplied.  The call behaves exactly as the call whose update
    holds that operator alone, whatever the other operators say; and its
    effect on the stored document is that operator's: with [$set] the
    payload is merged into the document and no list is pushed onto or
    pulled from; without [$set] but with [$push] the value is appended and
    nothing is pulled; with [$pull] alone the first occurrence is removed.
    An update that holds none of the three leaves the storage as it was
    and still returns [modified_count = 1]. *)
Theorem update_one_operator_priority (q : dict) (update : dict) (self : storage) :
  (forall payload : value,
     dict_get (KStr "$set") update = Some payload ->
     update_one (VDict q) (VDict update) self
     = update_one (VDict q) (VDict [(KStr "$set", payload)]) self)
  /\ (forall payload : value,
        dict_get (KStr "$set") update = None ->
        dict_get (KStr "$push") update = Some payload ->
        update_one (VDict q) (VDict update) self
        = update_one (VDict q) (VDict [(KStr "$push", payload)]) self)
  /\ (forall payload : value,
        dict_get (KStr "$set") update = None ->
        dict_get (KStr "$push") update = None ->
        dict_get (KStr "$pull") update = Some payload ->
        update_one (VDict q) (VDict update) self
        = update_one (VDict q) (VDict [(KStr "$pull", payload)]) self)
  /\ (forall (id : key) (doc : dict),
        dict_get (KStr "_id") q = Some (key_value id) ->
        dict_get id self = Some doc ->
        dict_get (KStr "$set") update = None ->
        dict_get (KStr "$push") update = None ->
        dict_get (KStr "$pull") update = None ->
        update_one (VDict q) (VDict update) self
        = (Ok {| modified_count := 1 |}, self))
  /\ (forall (id : key) (doc payload : dict),
        dict_get (KStr "_id") q = Some (key_value id) ->
        dict_get id self = Some doc ->
        dict_get (KStr "$set") update = Some (VDict payload) ->
        update_one (VDict q) (VDict update) self
        = (Ok {| modified_count := 1 |}, dict_set id (dict_merge doc payload) self)
        /\ (forall field : key, dict_get field payload = None ->
               dict_get field (dict_merge doc payload) = dict_get field doc)
        /\ (forall (field : key) (v : value),
               unique_keys payload = true ->
               dict_get field payload = Some v ->
               dict_get field (dict_merge doc payload) = Some v))
  /\ (forall (id : key) (doc : dict) (field : string) (v : value)
             (xs : list value),
        dict_get (KStr "_id") q = Some (key_value id) ->
        dict_get id self = Some doc ->
        dict_get (KStr "$set") update = None ->
        dict_get (KStr "$push") update = Some (VDict [(KStr field, v)]) ->
        dict_get (KStr field) doc = Some (VList xs) ->
        update_one (VDict q) (VDict update) self
        = (Ok {| modified_count := 1 |},
           dict_set id (dict_set (KStr field) (VList (xs ++ [v])) doc) self))
  /\ (forall (id : key) (doc : dict) (field : string) (v : value)
             (xs : list value),
        dict_get (KStr "_id") q = Some (key_value id) ->
        dict_get id self = Some doc ->
        dict_get (KStr "$set") update = None ->
        dict_get (KStr "$push") update = None ->
        dict_get (KStr "$pull") update = Some (VDict [(KStr field, v)]) ->
        dict_get (KStr field) doc = Some (VList xs) ->
        update_one (VDict q) (VDict update) self
        = (Ok {| modified_count := 1 |},
           dict_set id
             (dict_set (KStr field)
                (VList match list_remove v xs with
                       | Some xs' => xs'
                       | None => xs
                       end) doc) self)).
Proof.
  split; [|split; [|split; [|split; [|split; [|split]]]]].
  - intros payload H. apply update_one_same_apply. now apply apply_update_set.
  - intros payload Hset H. apply update_one_same_apply.
    now apply apply_update_push.
  - intros payload Hset Hpush H. apply update_one_same_apply.
    now apply apply_update_pull.
  - intros id doc Hid Hdoc Hset Hpush Hpull.
    rewrite (update_one_present q (VDict update) self id doc Hid Hdoc).
    rewrite (apply_update_none update doc Hset Hpush Hpull). simpl.
    now rewrite dict_set_same_value.
  - intros id doc payload Hid Hdoc Hset. split; [|split].
    + rewrite (update_one_present q (VDict update) self id doc Hid Hdoc).
      unfold apply_update, sbind, lift. simpl. unfold dict_mem.
      now rewrite Hset.
    + intros field Hfield. now apply dict_get_merge_absent.
    + intros field v Hu Hfield. now apply dict_get_merge_present.
  - intros id doc field v xs Hid Hdoc Hset Hpush Hxs.
    rewrite (update_one_present q (VDict update) self id doc Hid Hdoc).
    unfold apply_update, sbind, lift. simpl. unfold dict_mem.
    rewrite Hset, Hpush. simpl. unfold sbind, sret, dict_mem.
    now rewrite Hxs, Hxs.
  - intros id doc field v xs Hid Hdoc Hset Hpush Hpull Hxs.
    rewrite (update_one_present q (VDict update) self id doc Hid Hdoc).
    unfold apply_update, sbind, lift. simpl. unfold dict_mem.
    rewrite Hset, Hpush, Hpull. simpl. unfold sbind, sret.
    rewrite Hxs. destruct (list_remove v xs) as [xs'|]; simpl; [reflexivity|].
    now rewrite (dict_set_same_value doc _ _ Hxs).
Qed.

(** Updates that hold several operators, on the seeded Chess Club: with
    all three, only [$set] is applied (the capacity changes, the
    participants stay); with [$pull] before [$push], only [$push] is
    applied (one participant more, none less); and an update that holds
    none of the three. *)
Lemma update_one_operator_priority_witness :
  (exists self' : storage,
     update_one (by_id (KStr "Chess Club"))
       (VDict [ (KStr "$pull", VDict [(KStr "participants", VStr "daniel@mergington.edu")]);
                (KStr "$push", VDict [(KStr "participants", VStr "x@y.edu")]);
                (KStr "$set", VDict [(KStr "max_participants", VInt 13)]) ])
       seeded_activities
     = (Ok {| modified_count := 1 |}, self')
     /\ sequence_at "participants" (KStr "Chess Club") self'
        = Some [ VStr "michael@mergington.edu"; VStr "daniel@mergington.edu" ]
     /\ match dict_get (KStr "Chess Club") self' with
        | Some doc' => dict_get (KStr "max_participants") doc'
        | None => None
        end = Some (VInt 13))
  /\ (exists self' : storage,
        update_one (by_id (KStr "Chess Club"))
          (VDict [ (KStr "$pull", VDict [(KStr "participants", VStr "daniel@mergington.edu")]);
                   (KStr "$push", VDict [(KStr "participants", VStr "x@y.edu")]) ])
          seeded_activities
        = (Ok {| modified_count := 1 |}, self')
        /\ sequence_at "participants" (KStr "Chess Club") self'
           = Some [ VStr "michael@mergington.edu"; VStr "daniel@mergington.edu";
                    VStr "x@y.edu" ])
  /\ update_one (by_id (KStr "Chess Club"))
       (VDict [(KStr "$inc", VDict [(KStr "max_participants", VInt 1)])])
       seeded_activities
     = (Ok {| modified_count := 1 |}, seeded_activities).
Proof.
  destruct (dict_get (KStr "Chess Club") seeded_activities) as [doc|] eqn:E;
    [|discriminate E].
  split; [|split].
  - eexists. split.
    + apply (proj1 (proj2 (proj2 (proj2 (proj2
               (update_one_operator_priority [(KStr "_id", VStr "Chess Club")]
                  [ (KStr "$pull", VDict [(KStr "participants", VStr "daniel@mergington.edu")]);
                    (KStr "$push", VDict [(KStr "participants", VStr "x@y.edu")]);
                    (KStr "$set", VDict [(KStr "max_participants", VInt 13)]) ]
                  seeded_activities)))))
               (KStr "Chess Club") doc [(KStr "max_participants", VInt 13)]);
        solve [reflexivity | exact E].
    + injection E as <-. split; reflexivity.
  - eexists. split.
    + apply (proj1 (proj2 (proj2 (proj2 (proj2 (proj2
               (update_one_operator_priority [(KStr "_id", VStr "Chess Club")]
                  [ (KStr "$pull", VDict [(KStr "participants", VStr "daniel@mergington.edu")]);
                    (KStr "$push", VDict [(KStr "participants", VStr "x@y.edu")]) ]
                  seeded_activities))))))
               (KStr "Chess Club") doc "participants" (VStr "x@y.edu")
               [VStr "michael@mergington.edu"; VStr "daniel@mergington.edu"]);
        solve [reflexivity | exact E | injection E as <-; reflexivity].
    + injection E as <-. reflexivity.
  - apply (proj1 (proj2 (proj2 (proj2
             (update_one_operator_priority [(KStr "_id", VStr "Chess Club")]
                [(KStr "$inc", VDict [(KStr "max_participants", VInt 1)])]
                seeded_activities)))) (KStr "Chess Club") doc);
      solve [reflexivity | exact E].
Defined.

(** ** Seeding (C6) *)

Lemma count_documents_zero (q : value) (self : storage) :
  Z.eqb (count_documents q self) 0 = true <-> self = [].
Proof.
  unfold count_documents. destruct self; simpl; split; intro H;
    try reflexivity; discriminate.
Qed.

Lemma seed_activities_run :
  seed_activities initial_activities [] = (Ok tt, seeded_activities).
Proof. vm_compute. reflexivity. Qed.

Lemma seed_teachers_run (hash_password : string -> string) :
  seed_teachers (initial_teachers hash_password) []
  = (Ok tt, seeded_teachers hash_password).
Proof. vm_compute. reflexivity. Qed.

(** What [init_database] leaves in a collection that held [self]. *)
Lemma init_database_run (hash_password : string -> string) (db : database) :
  init_database hash_password db
  = (Ok tt,
     {| activities_collection :=
          match activities_collection db with
          | [] => seeded_activities
          | _ :: _ => activities_collection db
          end;
        teachers_collection :=
          match teachers_collection db with
          | [] => seeded_teachers hash_password
          | _ :: _ => teachers_collection db
          end |}).
Proof.
  destruct db as [acts teachers].
  unfold init_database, sbind, on_activities, on_teachers.
  cbn [activities_collection teachers_collection].
  destruct acts as [|a acts]; destruct teachers as [|t teachers].
  - change (Z.eqb (count_documents (VDict []) []) 0) with true. cbv iota.
    rewrite seed_activities_run. cbn [activities_collection teachers_collection].
    now rewrite seed_teachers_run.
  - change (Z.eqb (count_documents (VDict []) []) 0) with true. cbv iota.
    now rewrite seed_activities_run.
  - change (Z.eqb (count_documents (VDict []) []) 0) with true.
    change (Z.eqb (count_documents (VDict []) (a :: acts)) 0) with false.
    cbv iota. cbn [activities_collection teachers_collection].
    now rewrite seed_teachers_run.
  - reflexivity.
Qed.

(** C6. [init_database] seeds a collection from its catalog exactly when
    the collection counts no document; it never fails, and it leaves both
    collections non-empty.  So a second call in a row inserts nothing: it
    returns the database the first call left, and [count_documents] of
    both collections is what it was after the first call. *)
Theorem init_database_idempotent (hash_password : string -> string) (db : database) :
  exists db1 db2 : database,
    init_database hash_password db = (Ok tt, db1)
    /\ init_database hash_password db1 = (Ok tt, db2)
    /\ db2 = db1
    /\ count_documents (VDict []) (activities_collection db2)
       = count_documents (VDict []) (activities_collection db1)
    /\ count_documents (VDict []) (teachers_collection db2)
       = count_documents (VDict []) (teachers_collection db1)
    /\ count_documents (VDict []) (activities_collection db1) <> 0%Z
    /\ count_documents (VDict []) (teachers_collection db1) <> 0%Z
    /\ (count_documents (VDict []) (activities_collection db) <> 0%Z ->
        activities_collection db1 = activities_collection db)
    /\ (count_documents (VDict []) (teachers_collection db) <> 0%Z ->
        teachers_collection db1 = teachers_collection db)
    /\ (count_documents (VDict []) (activities_collection db) = 0%Z ->
        activities_collection db1 = seeded_activities)
    /\ (count_documents (VDict []) (teachers_collection db) = 0%Z ->
        teachers_collection db1 = seeded_teachers hash_password).
Proof.
  eexists. eexists. split; [apply init_database_run|].
  split; [apply init_database_run|].
  destruct db as [acts teachers]. simpl.
  repeat split.
  - destruct acts, teachers; reflexivity.
  - destruct acts; reflexivity.
  - destruct teachers; reflexivity.
  - destruct acts; discriminate.
  - destruct teachers; discriminate.
  - destruct acts; [intro H; now elim H|reflexivity].
  - destruct teachers; [intro H; now elim H|reflexivity].
  - destruct acts; [reflexivity|discriminate].
  - destruct teachers; [reflexivity|discriminate].
Qed.

(** Starting from two empty collections, with the identity for a hash. *)
Lemma init_database_idempotent_witness :
  exists db1 db2 : database,
    init_database (fun password => password)
      {| activities_collection := []; teachers_collection := [] |} = (Ok tt, db1)
    /\ init_database (fun password => password) db1 = (Ok tt, db2)
    /\ db2 = db1
    /\ count_documents (VDict []) (activities_collection db2) = 13%Z
    /\ count_documents (VDict []) (teachers_collection db2) = 3%Z.
Proof.
  destruct (init_database_idempotent (fun password => password)
              {| activities_collection := []; teachers_collection := [] |})
    as (db1 & db2 & H1 & H2 & E & _ & _ & _ & _ & _ & _ & Ha & Ht).
  exists db1, db2. repeat split; try assumption.
  - rewrite E, (Ha eq_refl). reflexivity.
  - rewrite E, (Ht eq_refl). reflexivity.
Defined.

(** ** Python equality *)

Lemma value_nested_ind (P : value -> Prop) :
  P VNone ->
  (forall z, P (VInt z)) ->
  (forall s, P (VStr s)) ->
  (forall xs, Forall P xs -> P (VList xs)) ->
  (forall kvs, Forall (fun kv => P (snd kv)) kvs -> P (VDict kvs)) ->
  forall v, P v.
Proof.
  intros HNone HInt HStr HList HDict. fix IH 1. intros [ | z | s | xs | kvs].
  - exact HNone.
  - apply HInt.
  - apply HStr.
  - apply HList. induction xs as [|x xs IHxs]; constructor;
      [apply IH | exact IHxs].
  - apply HDict. induction kvs as [|[k x] kvs IHkvs]; constructor;
      [apply IH | exact IHkvs].
Qed.

Lemma unique_keys_get {V : Type} (d : list (key * V)) (k : key) (v : V) :
  unique_keys d = true -> In (k, v) d -> dict_get k d = Some v.
Proof.
  induction d as [|[k' v'] d IH]; simpl; [contradiction|].
  intros Hu [E|Hin].
  - injection E as -> ->. now rewrite key_eqb_refl.
  - apply andb_true_iff in Hu as [Hfresh Hu].
    destruct (key_eqb k k') eqn:E.
    + apply key_eqb_eq in E. subst k'.
      unfold dict_mem in Hfresh.
      rewrite (IH Hu Hin) in Hfresh. discriminate.
    + now apply IH.
Qed.

Lemma py_eq_refl (v : value) : wf_value v = true -> py_eq v v = true.
Proof.
  induction v as [ | z | s | xs IH | kvs IH] using value_nested_ind;
    intro Hwf; simpl.
  - reflexivity.
  - apply Z.eqb_refl.
  - apply String.eqb_refl.
  - simpl in Hwf. induction IH as [|x xs Hx _ IHxs]; [reflexivity|].
    simpl in Hwf. apply andb_true_iff in Hwf as [Hwx Hwxs].
    now rewrite (Hx Hwx), (IHxs Hwxs).
  - simpl in Hwf. apply andb_true_iff in Hwf as [Hu Hwf].
    rewrite Nat.eqb_refl. simpl.
    assert (Hall : forall k x, In (k, x) kvs ->
                     dict_get k kvs = Some x /\ py_eq x x = true).
    { intros k x Hin. split; [now apply unique_keys_get|].
      clear Hu. induction IH as [|[k' x'] d Hx _ IHd]; [contradiction|].
      apply andb_true_iff in Hwf as [Hwx Hwd].
      destruct Hin as [E|Hin].
      - injection E as -> ->. now apply Hx.
      - now apply IHd. }
    clear IH Hu Hwf.
    enough (Hgo : forall d, incl d kvs ->
              (fix go (d : list (key * value)) : bool :=
                 match d with
                 | [] => true
                 | (k, v) :: d' =>
                     match dict_get k kvs with
                     | Some v' => py_eq v v'
                     | None => false
                     end && go d'
                 end) d = true)
      by (apply Hgo, incl_refl).
    induction d as [|[k x] d IHd]; intro Hincl; [reflexivity|].
    destruct (Hall k x (Hincl _ (or_introl eq_refl))) as [-> ->].
    apply IHd. intros kv Hin. apply Hincl. now right.
Qed.

(** ** [$push] then [$pull] (C2) *)

Lemma list_remove_absent (v : value) (xs : list value) :
  existsb (fun item => py_eq item v) xs = false -> list_remove v xs = None.
Proof.
  induction xs as [|x xs IH]; simpl; [reflexivity|].
  intro H. apply orb_false_iff in H as [Hx Hxs].
  now rewrite Hx, IH.
Qed.

(** Removing [v] from a list it was appended to: the first occurrence goes,
    which is the appended one only when there was none before. *)
Lemma list_remove_appended (v : value) (xs : list value) :
  py_eq v v = true ->
  list_remove v (xs ++ [v])
  = Some match list_remove v xs with
         | Some xs' => xs' ++ [v]
         | None => xs
         end.
Proof.
  intro Hrefl. induction xs as [|x xs IH]; simpl.
  - now rewrite Hrefl.
  - destruct (py_eq x v); [reflexivity|].
    rewrite IH. now destruct (list_remove v xs).
Qed.

Lemma apply_push_one (field : string) (v : value) (doc : dict) (xs : list value) :
  dict_get (KStr field) doc = Some (VList xs) ->
  apply_update (update_field "$push" field v) doc
  = (Ok tt, dict_set (KStr field) (VList (xs ++ [v])) doc).
Proof.
  intro H. unfold update_field, apply_update, sbind, lift. simpl.
  unfold sbind, sret, dict_mem. now rewrite H, H.
Qed.

Lemma apply_pull_one (field : string) (v : value) (doc : dict)
  (xs xs' : list value) :
  dict_get (KStr field) doc = Some (VList xs) ->
  list_remove v xs = Some xs' ->
  apply_update (update_field "$pull" field v) doc
  = (Ok tt, dict_set (KStr field) (VList xs') doc).
Proof.
  intros H Hrm. unfold update_field, apply_update, sbind, lift. simpl.
  unfold sbind, sret. now rewrite H, Hrm.
Qed.

(** C2 (amended). When the document stored under [id] holds a sequence at
    ["participants"] (or at any other field) in which [v] does not already
    occur, [$push] of [v] followed by [$pull] of [v] returns
    [modified_count = 1] twice and restores the sequence, in its order,
    and the whole storage with it. *)
Theorem push_pull_restores (q : dict) (self : storage) (id : key) (doc : dict)
  (field : string) (xs : list value) (v : value) :
  dict_get (KStr "_id") q = Some (key_value id) ->
  dict_get id self = Some doc ->
  dict_get (KStr field) doc = Some (VList xs) ->
  wf_value v = true ->
  existsb (fun item => py_eq item v) xs = false ->
  exists pushed : storage,
    update_one (VDict q) (update_field "$push" field v) self
    = (Ok {| modified_count := 1 |}, pushed)
    /\ sequence_at field id pushed = Some (xs ++ [v])
    /\ update_one (VDict q) (update_field "$pull" field v) pushed
       = (Ok {| modified_count := 1 |}, self)
    /\ sequence_at field id self = Some xs.
Proof.
  intros Hid Hdoc Hxs Hwf Hfresh.
  pose (doc1 := dict_set (KStr field) (VList (xs ++ [v])) doc : dict).
  exists (dict_set id doc1 self).
  assert (Hdoc1 : dict_get id (dict_set id doc1 self) = Some doc1)
    by apply dict_get_set_same.
  assert (Hxs1 : dict_get (KStr field) doc1 = Some (VList (xs ++ [v])))
    by apply dict_get_set_same.
  split; [|split; [|split]].
  - rewrite (update_one_present q _ self id doc Hid Hdoc).
    now rewrite (apply_push_one field v doc xs Hxs).
  - unfold sequence_at. now rewrite Hdoc1, Hxs1.
  - rewrite (update_one_present q _ _ id doc1 Hid Hdoc1).
    rewrite (apply_pull_one field v doc1 (xs ++ [v]) xs Hxs1).
    + simpl. unfold doc1. rewrite !dict_set_twice.
      now rewrite (dict_set_same_value doc _ _ Hxs), (dict_set_same_value self _ _ Hdoc).
    + rewrite (list_remove_appended v xs (py_eq_refl v Hwf)).
      now rewrite (list_remove_absent v xs Hfresh).
  - unfold sequence_at. now rewrite Hdoc, Hxs.
Qed.

Lemma push_pull_restores_witness :
  exists pushed : storage,
    update_one (by_id (KStr "Chess Club"))
      (update_field "$push" "participants" (VStr "x@y.edu")) seeded_activities
    = (Ok {| modified_count := 1 |}, pushed)
    /\ sequence_at "participants" (KStr "Chess Club") pushed
       = Some [ VStr "michael@mergington.edu"; VStr "daniel@mergington.edu";
                VStr "x@y.edu" ]
    /\ update_one (by_id (KStr "Chess Club"))
         (update_field "$pull" "participants" (VStr "x@y.edu")) pushed
       = (Ok {| modified_count := 1 |}, seeded_activities)
    /\ sequence_at "participants" (KStr "Chess Club") seeded_activities
       = Some [ VStr "michael@mergington.edu"; VStr "daniel@mergington.edu" ].
Proof.
  destruct (dict_get (KStr "Chess Club") seeded_activities) as [doc|] eqn:E;
    [|discriminate E].
  apply (push_pull_restores [(KStr "_id", VStr "Chess Club")] seeded_activities
           (KStr "Chess Club") doc "participants"
           [VStr "michael@mergington.edu"; VStr "daniel@mergington.edu"]
           (VStr "x@y.edu") eq_refl E);
    solve [reflexivity | injection E as <-; reflexivity].
Defined.

(** C2, as first stated, fails when [v] is already enrolled: the Chess Club
    starts with michael before daniel; pushing michael again and pulling
    him removes the first occurrence, and leaves daniel before michael. *)
Lemma push_pull_reorders_duplicate :
  let id := KStr "Chess Club" in
  let v := VStr "michael@mergington.edu" in
  let pushed :=
    snd (update_one (by_id id) (update_field "$push" "participants" v)
           seeded_activities) in
  let pulled :=
    snd (update_one (by_id id) (update_field "$pull" "participants" v) pushed) in
  sequence_at "participants" id seeded_activities
  = Some [VStr "michael@mergington.edu"; VStr "daniel@mergington.edu"]
  /\ sequence_at "participants" id pulled
     = Some [VStr "daniel@mergington.edu"; VStr "michael@mergington.edu"]
  /\ sequence_at "participants" id pulled
     <> sequence_at "participants" id seeded_activities.
Proof. repeat split. discriminate. Qed.

(** ** Filtering (C1, C4) *)

Lemma string_not_ltb (a b : string) : negb (String.ltb a b) = String.leb b a.
Proof.
  unfold String.ltb, String.leb. rewrite (String.compare_antisym a b).
  now destruct (String.compare b a).
Qed.

Lemma days_of_get (doc : dict) (days : list value) :
  days_of doc = Some days ->
  py_get (dict_get_default (KStr "schedule_details") (VDict []) doc)
    "days" (VList [])
  = Ok (VList days).
Proof.
  unfold days_of, schedule_details_of, dict_get_default.
  destruct (dict_get (KStr "schedule_details") doc) as [details|].
  - destruct details; try discriminate. simpl. unfold dict_get_default.
    destruct (dict_get (KStr "days") kvs) as [stored|].
    + destruct stored; try discriminate. now intros [= ->].
    + now intros [= <-].
  - simpl. now intros [= <-].
Qed.

Lemma time_of_get (field default : string) (doc : dict) (time : string) :
  time_of field default doc = Some time ->
  py_get (dict_get_default (KStr "schedule_details") (VDict []) doc)
    field (VStr default)
  = Ok (VStr time).
Proof.
  unfold time_of, schedule_details_of, dict_get_default.
  destruct (dict_get (KStr "schedule_details") doc) as [details|].
  - destruct details; try discriminate. simpl. unfold dict_get_default.
    destruct (dict_get (KStr field) kvs) as [stored|].
    + destruct stored; try discriminate. now intros [= ->].
    + now intros [= <-].
  - simpl. now intros [= <-].
Qed.

Lemma py_any_in_list (targets days : list value) :
  py_any_in targets (VList days)
  = Ok (existsb (fun t => existsb (fun d => py_eq d t) days) targets).
Proof.
  induction targets as [|t targets IH]; simpl; [reflexivity|].
  destruct (existsb (fun d => py_eq d t) days); [reflexivity|exact IH].
Qed.

Lemma py_eq_str (a b : string) : py_eq (VStr a) (VStr b) = true <-> a = b.
Proof. simpl. apply String.eqb_eq. Qed.

(** [satisfies] on a days condition is a non-empty intersection: some
    target equals some day of the document; for weekday names, some name is
    in both lists. *)
Lemma satisfies_days_intersect (doc : dict) (days targets : list value) :
  days_of doc = Some days ->
  satisfies doc (DaysIn targets) = true
  <-> exists t d, In t targets /\ In d days /\ py_eq d t = true.
Proof.
  intro Hdays. simpl. rewrite Hdays, existsb_exists. split.
  - intros (t & Ht & Hex). apply existsb_exists in Hex as (d & Hd & E).
    now exists t, d.
  - intros (t & d & Ht & Hd & E). exists t. split; [assumption|].
    apply existsb_exists. now exists d.
Qed.

Lemma satisfies_day_names_intersect (doc : dict) (names targets : list string) :
  days_of doc = Some (map VStr names) ->
  satisfies doc (DaysIn (map VStr targets)) = true
  <-> exists day, In day targets /\ In day names.
Proof.
  intro Hdays. rewrite (satisfies_days_intersect doc _ _ Hdays). split.
  - intros (t & d & Ht & Hd & E).
    apply in_map_iff in Ht as (t' & <- & Ht').
    apply in_map_iff in Hd as (d' & <- & Hd').
    apply py_eq_str in E. subst d'. now exists t'.
  - intros (day & Ht & Hd). exists (VStr day), (VStr day).
    split; [now apply in_map|]. split; [now apply in_map|].
    now apply py_eq_str.
Qed.

Lemma check_condition_denotes (doc : dict) (entry : key * value) (c : condition) :
  denotes entry c -> readable doc c ->
  check_condition doc (fst entry) (snd entry) = Ok (satisfies doc c).
Proof.
  intros [cond targets Hop | cond bound Hop | cond bound Hop] Hread;
    simpl in Hread; unfold check_condition; simpl; unfold dict_mem;
    rewrite Hop; simpl.
  - destruct (days_of doc) as [days|] eqn:Hdays; [|now elim Hread].
    rewrite (days_of_get doc days Hdays). simpl.
    now rewrite py_any_in_list.
  - unfold start_time_of in *.
    destruct (time_of "start_time" "00:00" doc) as [start|] eqn:Ht;
      [|now elim Hread].
    rewrite (time_of_get _ _ doc start Ht). simpl.
    now rewrite string_not_ltb.
  - unfold end_time_of in *.
    destruct (time_of "end_time" "23:59" doc) as [stop|] eqn:Ht;
      [|now elim Hread].
    rewrite (time_of_get _ _ doc stop Ht). simpl.
    now rewrite string_not_ltb.
Qed.

Lemma doc_matches_denotes (doc : dict) (q : list (key * value)) (cs : list condition) :
  Forall2 denotes q cs -> Forall (readable doc) cs ->
  doc_matches doc q = Ok (forallb (satisfies doc) cs).
Proof.
  induction 1 as [|[k c] cond q cs Hden _ IH]; intro Hread; [reflexivity|].
  inversion Hread as [|? ? Hc Hcs]; subst.
  cbn [doc_matches forallb].
  pose proof (check_condition_denotes doc (k, c) cond Hden Hc) as Hcheck.
  simpl in Hcheck. rewrite Hcheck. simpl.
  destruct (satisfies doc cond); [now apply IH|reflexivity].
Qed.

Lemma find_filtered_nil (self : storage) :
  find_filtered (VDict []) self = Ok (map with_id self).
Proof.
  induction self as [|[k doc] rest IH]; simpl; [reflexivity|].
  simpl in IH. now rewrite IH.
Qed.

Lemma find_dict (q : list (key * value)) (self : storage) :
  find (VDict q) self = find_filtered (VDict q) self.
Proof.
  destruct q; [|reflexivity]. unfold find. simpl.
  symmetry. apply find_filtered_nil.
Qed.

(** C1. On a query whose entries are conditions of the three recognized
    kinds, and a storage whose documents hold values of the data model's
    types under the fields these conditions read, [find] returns, in
    storage order and with ["_id"] merged in, exactly the documents that
    satisfy all the conditions: [$in] on the days when the document's days
    and the targets have an element in common, [$gte] on the start time
    when the start (["00:00"] when missing) is at or after the bound,
    [$lte] on the end time when the end (["23:59"] when missing) is at or
    before the bound.  On the two documents of the example, the Friday
    query with a start from 12:00 returns the first document only. *)
Theorem find_and_semantics (self : storage) (q : list (key * value))
  (cs : list condition) :
  Forall2 denotes q cs ->
  Forall (fun entry => Forall (readable (snd entry)) cs) self ->
  find (VDict q) self = Ok (map with_id (filter (selected cs) self))
  /\ find (VDict friday_afternoon_query) two_documents
     = Ok [with_id (KStr "afternoon", afternoon_doc)].
Proof.
  intros Hq Hself. split; [|reflexivity].
  rewrite find_dict.
  induction Hself as [|[k doc] rest Hdoc _ IH]; [reflexivity|].
  cbn [find_filtered py_items bind filter]. simpl in Hdoc.
  rewrite (doc_matches_denotes doc q cs Hq Hdoc). cbn [bind].
  rewrite IH. cbn [bind].
  change (selected cs (k, doc)) with (forallb (satisfies doc) cs).
  now destruct (forallb (satisfies doc) cs).
Qed.

Lemma find_and_semantics_witness :
  find (VDict friday_afternoon_query) two_documents
  = Ok (map with_id
          (filter (selected [DaysIn [VStr "Friday"]; StartGte "12:00"])
             two_documents))
  /\ find (VDict friday_afternoon_query) two_documents
     = Ok [with_id (KStr "afternoon", afternoon_doc)].
Proof.
  apply (find_and_semantics two_documents friday_afternoon_query
           [DaysIn [VStr "Friday"]; StartGte "12:00"]).
  - repeat constructor.
  - repeat constructor; discriminate.
Defined.

(** The two ways to be ignored: any condition at all under another path;
    under a recognized path, a mapping without that path's operator. *)
Lemma ignored_condition_cases (path : key) :
  (recognized_operator path = None ->
   forall c : value, ignored_condition (path, c) = true)
  /\ (forall (op : string) (c : dict),
        recognized_operator path = Some op ->
        dict_get (KStr op) c = None ->
        ignored_condition (path, VDict c) = true).
Proof.
  unfold ignored_condition. cbn [fst snd]. split.
  - now intros ->.
  - intros op c -> Hop. simpl. unfold dict_mem. now rewrite Hop.
Qed.

(** On such a condition the membership test of [find] answers no, and
    does not raise. *)
Lemma lacks_operator_contains (op : string) (c : value) :
  lacks_operator op c = true -> py_contains (VStr op) c = Ok false.
Proof.
  destruct c as [ | z | s | xs | d]; simpl; try discriminate;
    intro H; apply negb_true_iff in H; now rewrite H.
Qed.

Lemma check_condition_ignored (doc : dict) (entry : key * value) :
  ignored_condition entry = true ->
  check_condition doc (fst entry) (snd entry) = Ok true.
Proof.
  destruct entry as [path c]. unfold ignored_condition, recognized_operator,
    check_condition. cbn [fst snd].
  destruct (key_eqb path (KStr "schedule_details.days")).
  { intro H. now rewrite (lacks_operator_contains _ _ H). }
  destruct (key_eqb path (KStr "schedule_details.start_time")).
  { intro H. now rewrite (lacks_operator_contains _ _ H). }
  destruct (key_eqb path (KStr "schedule_details.end_time")).
  { intro H. now rewrite (lacks_operator_contains _ _ H). }
  reflexivity.
Qed.

Lemma doc_matches_ignored (doc : dict) (before after : list (key * value))
  (entry : key * value) :
  ignored_condition entry = true ->
  doc_matches doc (before ++ entry :: after) = doc_matches doc (before ++ after).
Proof.
  intro Hign. induction before as [|[k c] before IH]; simpl.
  - pose proof (check_condition_ignored doc entry Hign) as Hcheck.
    destruct entry as [path c]. simpl in Hcheck. now rewrite Hcheck.
  - now rewrite IH.
Qed.

Lemma find_filtered_ext (q1 q2 : list (key * value)) (self : storage) :
  (forall doc, doc_matches doc q1 = doc_matches doc q2) ->
  find_filtered (VDict q1) self = find_filtered (VDict q2) self.
Proof.
  intro Hext. induction self as [|[k doc] rest IH]; [reflexivity|].
  cbn [find_filtered py_items bind]. now rewrite Hext, IH.
Qed.

Lemma doc_matches_all_ignored (doc : dict) (q : list (key * value)) :
  forallb ignored_condition q = true -> doc_matches doc q = Ok true.
Proof.
  induction q as [|entry q IH]; [reflexivity|].
  simpl. intro H. apply andb_true_iff in H as [Hentry Hq].
  pose proof (check_condition_ignored doc entry Hentry) as Hcheck.
  destruct entry as [path c]. simpl in Hcheck. rewrite Hcheck. simpl.
  now apply IH.
Qed.

(** C4, as first stated, fails: under a recognized path a condition that
    holds no operator because it is no container at all, here a number
    where a start time is looked for, is not ignored; the membership test
    itself raises [TypeError]. *)
Lemma find_uncontained_condition_raises :
  recognized_operator (KStr "schedule_details.start_time") = Some "$gte"
  /\ find (VDict []) two_documents = Ok (map with_id two_documents)
  /\ find (VDict [(KStr "schedule_details.start_time", VInt 900)]) two_documents
     = Raise TypeError.
Proof. repeat split. Qed.

(** C4 (amended). A query entry whose path is none of the three recognized
    ones, whatever its condition, or whose path is recognized and whose
    condition is a mapping, a sequence or a string that does not hold the
    operator recognized for that path, is ignored by [find]: with or
    without it, wherever it stands in the query, [find] gives the same
    outcome on every storage (the same documents, and no error that the
    rest of the query does not raise); and a query made only of such
    entries returns every document. *)
Theorem find_ignores_unrecognized (self : storage)
  (before after : list (key * value)) (entry : key * value) :
  ignored_condition entry = true ->
  find (VDict (before ++ entry :: after)) self
  = find (VDict (before ++ after)) self
  /\ (forallb ignored_condition (before ++ after) = true ->
      find (VDict (before ++ entry :: after)) self = Ok (map with_id self)).
Proof.
  intro Hign. rewrite !find_dict. split.
  - apply find_filtered_ext. intro doc. now apply doc_matches_ignored.
  - intro Hall. rewrite <- find_filtered_nil.
    apply find_filtered_ext. intro doc.
    rewrite (doc_matches_ignored doc before after entry Hign).
    now apply doc_matches_all_ignored.
Qed.

(** An unknown path, and [$lt] where [$gte] is looked for, added to the
    Friday query; and the two alone. *)
Lemma find_ignores_unrecognized_witness :
  find (VDict ((KStr "max_participants", VDict [(KStr "$gte", VInt 100)])
               :: friday_afternoon_query)) two_documents
  = find (VDict friday_afternoon_query) two_documents
  /\ find (VDict [ (KStr "schedule_details.start_time",
                     VDict [(KStr "$lt", VStr "00:00")]);
                   (KStr "name", VStr "Chess Club") ]) two_documents
     = Ok (map with_id two_documents).
Proof.
  split.
  - apply (find_ignores_unrecognized two_documents [] friday_afternoon_query
             (KStr "max_participants", VDict [(KStr "$gte", VInt 100)])).
    reflexivity.
  - apply (find_ignores_unrecognized two_documents []
             [(KStr "name", VStr "Chess Club")]
             (KStr "schedule_details.start_time",
              VDict [(KStr "$lt", VStr "00:00")])); reflexivity.
Defined.

(** ** Distinct days (C5) *)

Lemma string_ltb_connected (a b : string) :
  String.ltb a b = false -> a <> b -> string_lt b a.
Proof.
  unfold string_lt, String.ltb. intros Hlt Hne.
  rewrite (String.compare_antisym b a).
  destruct (String.compare a b) eqn:E; try discriminate; try reflexivity.
  apply String.compare_eq_iff in E. contradiction.
Qed.

Lemma strings_of_map (vs : list value) (ns : list string) :
  strings_of vs = Some ns -> vs = map VStr ns.
Proof.
  revert ns. induction vs as [|v vs IH]; simpl; intros ns H.
  - now injection H as <-.
  - destruct v; try discriminate.
    destruct (strings_of vs) as [ns'|]; [|discriminate].
    injection H as <-. simpl. now rewrite (IH ns' eq_refl).
Qed.

Lemma day_names_get (doc : dict) (ns : list string) :
  day_names_of doc = Some ns ->
  py_get (dict_get_default (KStr "schedule_details") (VDict []) doc)
    "days" (VList [])
  = Ok (VList (map VStr ns)).
Proof.
  unfold day_names_of. destruct (days_of doc) as [days|] eqn:Hdays;
    [|discriminate].
  intro H. rewrite (days_of_get doc days Hdays).
  now rewrite (strings_of_map days ns H).
Qed.

Lemma existsb_key_str (s : string) (acc : list string) :
  existsb (key_eqb (KStr s)) (map KStr acc) = existsb (String.eqb s) acc.
Proof. induction acc as [|a acc IH]; simpl; [reflexivity|now rewrite IH]. Qed.

Lemma existsb_string_In (s : string) (acc : list string) :
  existsb (String.eqb s) acc = true <-> In s acc.
Proof.
  rewrite existsb_exists. split.
  - intros (x & Hin & E). apply String.eqb_eq in E. now subst.
  - intro Hin. exists s. split; [assumption|apply String.eqb_refl].
Qed.

Lemma set_add_all_strs (ns : list string) :
  forall acc : list string, NoDup acc ->
    exists acc',
      set_add_all (map VStr ns) (map KStr acc) = Ok (map KStr acc')
      /\ NoDup acc'
      /\ forall x, In x acc' <-> In x acc \/ In x ns.
Proof.
  induction ns as [|n ns IH]; intros acc Hnd.
  - exists acc. simpl. intuition.
  - cbn [map set_add_all hash_key as_key bind]. unfold set_add.
    rewrite existsb_key_str.
    destruct (existsb (String.eqb n) acc) eqn:E.
    + destruct (IH acc Hnd) as (acc' & Hrun & Hnd' & Hin).
      exists acc'. split; [exact Hrun|]. split; [exact Hnd'|].
      intro x. rewrite Hin. simpl. apply existsb_string_In in E.
      intuition (subst; auto).
    + assert (Hfresh : ~ In n acc).
      { intro Hin. apply existsb_string_In in Hin. congruence. }
      assert (Hnd1 : NoDup (acc ++ [n])).
      { apply NoDup_app; [assumption|repeat constructor; intros []|].
        intros x Hx [<-|[]]. contradiction. }
      destruct (IH (acc ++ [n]) Hnd1) as (acc' & Hrun & Hnd' & Hin).
      exists acc'. split.
      * change [KStr n] with (map KStr [n]). now rewrite <- map_app.
      * split; [exact Hnd'|]. intro x. rewrite Hin, in_app_iff. simpl.
        intuition.
Qed.

Lemma collect_days_strs (docs : list dict) :
  Forall (fun doc => day_names_of doc <> None) docs ->
  forall acc : list string, NoDup acc ->
    exists acc',
      collect_days docs (map KStr acc) = Ok (map KStr acc')
      /\ NoDup acc'
      /\ forall x, In x acc' <->
           In x acc
           \/ exists doc ns, In doc docs /\ day_names_of doc = Some ns /\ In x ns.
Proof.
  induction 1 as [|doc docs Hdoc _ IH]; intros acc Hnd.
  - exists acc. split; [reflexivity|]. split; [assumption|].
    intro x. split; [now left|]. intros [H|(doc & ns & [] & _)]. exact H.
  - destruct (day_names_of doc) as [ns|] eqn:Hns; [|now elim Hdoc].
    cbn [collect_days]. rewrite (day_names_get doc ns Hns). cbn [bind].
    unfold set_update. cbn [py_iter bind].
    destruct (set_add_all_strs ns acc Hnd) as (acc1 & Hrun1 & Hnd1 & Hin1).
    rewrite Hrun1. cbn [bind].
    destruct (IH acc1 Hnd1) as (acc' & Hrun & Hnd' & Hin).
    exists acc'. split; [exact Hrun|]. split; [exact Hnd'|].
    intro x. rewrite Hin, Hin1. split.
    + intros [[H|H]|(d & ns' & Hd & Hns' & Hx)].
      * now left.
      * right. exists doc, ns. simpl. auto.
      * right. exists d, ns'. simpl. auto.
    + intros [H|(d & ns' & [<-|Hd] & Hns' & Hx)].
      * now left; left.
      * left; right. congruence.
      * right. exists d, ns'. auto.
Qed.

Lemma sorted_insert_strs (x : string) (l : list string) :
  Sorted string_lt l -> ~ In x l ->
  exists l',
    sorted_insert (KStr x) (map KStr l) = Ok (map KStr l')
    /\ Sorted string_lt l'
    /\ Permutation l' (x :: l)
    /\ forall z, HdRel string_lt z l -> string_lt z x -> HdRel string_lt z l'.
Proof.
  induction l as [|y l IH]; intros Hsorted Hfresh.
  - exists [x]. split; [reflexivity|]. split; [now repeat constructor|].
    split; [reflexivity|]. intros z _ Hz. now constructor.
  - cbn [map sorted_insert]. unfold key_lt. cbn [key_value py_lt bind].
    destruct (String.ltb x y) eqn:Hxy.
    + exists (x :: y :: l). split; [reflexivity|].
      split; [constructor; [assumption|now constructor]|].
      split; [reflexivity|]. intros z _ Hz. now constructor.
    + apply Sorted_inv in Hsorted as [Hl Hhd].
      assert (Hyx : string_lt y x).
      { apply string_ltb_connected; [assumption|]. intros ->.
        apply Hfresh. now left. }
      destruct IH as (l' & Hrun & Hsorted' & Hperm & Hhead);
        [assumption|intro Hin; apply Hfresh; now right|].
      exists (y :: l'). rewrite Hrun. cbn [bind map].
      split; [reflexivity|].
      split; [constructor; [assumption|now apply Hhead]|].
      split; [rewrite Hperm; apply perm_swap|].
      intros z Hz _. inversion Hz; subst. now constructor.
Qed.

Lemma py_sorted_strs (l : list string) :
  NoDup l ->
  exists l',
    py_sorted (map KStr l) = Ok (map KStr l')
    /\ Sorted string_lt l'
    /\ Permutation l' l.
Proof.
  induction 1 as [|x l Hfresh _ IH].
  - exists []. split; [reflexivity|]. split; constructor.
  - destruct IH as (l0 & Hrun0 & Hsorted0 & Hperm0).
    destruct (sorted_insert_strs x l0 Hsorted0) as (l' & Hrun & Hsorted & Hperm & _).
    { intro Hin. apply Hfresh. now apply (Permutation_in _ Hperm0). }
    exists l'. cbn [map py_sorted]. rewrite Hrun0. cbn [bind].
    split; [exact Hrun|]. split; [exact Hsorted|].
    rewrite Hperm. now constructor.
Qed.

(** C5. On a storage whose documents have lists of strings for days (or no
    days), [aggregate] returns one record [{"_id": day}] for each day that
    occurs in some document's days, each day once, in increasing
    (character by character) order.  On the seeded catalog these are the
    seven weekday names, from Friday to Wednesday. *)
Theorem aggregate_distinct_sorted_days (pipeline : value) (self : storage) :
  Forall (fun entry => day_names_of (snd entry) <> None) self ->
  (exists names : list string,
     aggregate pipeline self = Ok (map day_record names)
     /\ NoDup names
     /\ Sorted string_lt names
     /\ forall day, In day names <->
          exists entry ns,
            In entry self /\ day_names_of (snd entry) = Some ns /\ In day ns)
  /\ aggregate pipeline seeded_activities
     = Ok (map day_record
             [ "Friday"; "Monday"; "Saturday"; "Sunday"; "Thursday";
               "Tuesday"; "Wednesday" ]).
Proof.
  intro Hshape. split; [|reflexivity].
  assert (Hdocs : Forall (fun doc => day_names_of doc <> None) (map snd self)).
  { apply Forall_map. exact Hshape. }
  destruct (collect_days_strs (map snd self) Hdocs [] (NoDup_nil _))
    as (days & Hcollect & Hnd & Hin).
  destruct (py_sorted_strs days Hnd) as (names & Hsort & Hsorted & Hperm).
  exists names. unfold aggregate.
  change (@nil key) with (map KStr []). rewrite Hcollect. cbn [bind].
  rewrite Hsort. cbn [bind]. split; [|split; [|split]].
  - now rewrite map_map.
  - apply (Permutation_NoDup (Permutation_sym Hperm) Hnd).
  - exact Hsorted.
  - intro day. split.
    + intro Hday. apply (Permutation_in _ Hperm) in Hday.
      apply Hin in Hday as [[]|(doc & ns & Hdoc & Hns & Hx)].
      apply in_map_iff in Hdoc as (entry & <- & Hentry).
      now exists entry, ns.
    + intros (entry & ns & Hentry & Hns & Hx).
      apply (Permutation_in _ (Permutation_sym Hperm)). apply Hin. right.
      exists (snd entry), ns. split; [now apply in_map|auto].
Qed.

Lemma aggregate_distinct_sorted_days_witness :
  (exists names : list string,
     aggregate VNone two_documents = Ok (map day_record names)
     /\ NoDup names
     /\ Sorted string_lt names
     /\ forall day, In day names <->
          exists entry ns,
            In entry two_documents
            /\ day_names_of (snd entry) = Some ns /\ In day ns)
  /\ aggregate VNone seeded_activities
     = Ok (map day_record
             [ "Friday"; "Monday"; "Saturday"; "Sunday"; "Thursday";
               "Tuesday"; "Wednesday" ]).
Proof.
  apply (aggregate_distinct_sorted_days VNone two_documents).
  repeat constructor; discriminate.
Defined.

(** * Further properties of the collection *)

(** ** [insert_one] and [find_one] *)

Lemma find_one_by_id (id : key) (self : storage) :
  find_one (by_id id) self = Ok (dict_get id self).
Proof.
  unfold find_one, by_id. simpl. unfold dict_get_default. simpl.
  now rewrite hash_key_value.
Qed.

Lemma as_key_inv (v : value) (k : key) : as_key v = Some k -> v = key_value k.
Proof. destruct v; simpl; intros [= <-]; reflexivity. Qed.

Lemma insert_one_run (document : dict) (id : key) (self : storage) :
  dict_get (KStr "_id") document = Some (key_value id) ->
  insert_one (VDict document) self = (Ok tt, dict_set id document self).
Proof.
  intro Hid. unfold insert_one, sbind, lift. simpl. rewrite Hid.
  now rewrite hash_key_value.
Qed.

Lemma dict_set_length_fresh {V : Type} (d : list (key * V)) (k : key) (v : V) :
  dict_get k d = None -> List.length (dict_set k v d) = S (List.length d).
Proof.
  intro H. rewrite (dict_set_fresh d k v H), length_app. simpl. lia.
Qed.

(** X1. A document inserted under its ["_id"] is what [find_one] then
    returns for that identity; every other identity is answered as before;
    and [count_documents] grows by one when the identity is new and stays
    when it was already stored. *)
Theorem insert_one_then_find_one (self : storage) (document : dict) (id : key) :
  dict_get (KStr "_id") document = Some (key_value id) ->
  exists self' : storage,
    insert_one (VDict document) self = (Ok tt, self')
    /\ find_one (by_id id) self' = Ok (Some document)
    /\ (forall other : key, other <> id ->
          find_one (by_id other) self' = find_one (by_id other) self)
    /\ count_documents VNone self'
       = (count_documents VNone self + if dict_mem id self then 0 else 1)%Z.
Proof.
  intro Hid. exists (dict_set id document self).
  split; [now apply insert_one_run|]. split; [|split].
  - rewrite find_one_by_id. now rewrite dict_get_set_same.
  - intros other Hne. rewrite !find_one_by_id.
    now rewrite dict_get_set_other.
  - unfold count_documents, dict_mem.
    destruct (dict_get id self) as [old|] eqn:E.
    + rewrite (dict_set_length_present self id document old E). lia.
    + rewrite (dict_set_length_fresh self id document E). lia.
Qed.

Lemma insert_one_then_find_one_witness :
  exists self' : storage,
    insert_one (VDict [(KStr "_id", VStr "Knitting"); (KStr "max_participants", VInt 8)])
      seeded_activities = (Ok tt, self')
    /\ find_one (by_id (KStr "Knitting")) self'
       = Ok (Some [(KStr "_id", VStr "Knitting"); (KStr "max_participants", VInt 8)])
    /\ (forall other : key, other <> KStr "Knitting" ->
          find_one (by_id other) self' = find_one (by_id other) seeded_activities)
    /\ count_documents VNone self' = 14%Z.
Proof.
  apply (insert_one_then_find_one seeded_activities
           [(KStr "_id", VStr "Knitting"); (KStr "max_participants", VInt 8)]
           (KStr "Knitting")).
  reflexivity.
Defined.

(** X2. [insert_one] changes the storage only when it succeeds, and it
    succeeds exactly on a dictionary whose ["_id"] is hashable: a dictionary
    without ["_id"] raises [KeyError], an ["_id"] that is a list or a
    dictionary raises [TypeError], and so does a document that is no
    dictionary. *)
Theorem insert_one_failure_keeps_storage (document : value) (self : storage) :
  (forall (e : exn) (self' : storage),
     insert_one document self = (Raise e, self') -> self' = self)
  /\ (forall d : dict, document = VDict d ->
        dict_get (KStr "_id") d = None ->
        insert_one document self = (Raise KeyError, self))
  /\ (forall (d : dict) (id : value), document = VDict d ->
        dict_get (KStr "_id") d = Some id -> as_key id = None ->
        insert_one document self = (Raise TypeError, self))
  /\ ((forall d : dict, document <> VDict d) ->
      insert_one document self = (Raise TypeError, self))
  /\ (fst (insert_one document self) = Ok tt <->
      exists (d : dict) (id : key),
        document = VDict d /\ dict_get (KStr "_id") d = Some (key_value id)).
Proof.
  unfold insert_one, sbind, lift, hash_key.
  destruct document as [ | z | s | xs | d]; simpl.
  1-4: (split; [now intros e self' [= _ <-]|];
        split; [discriminate|]; split; [discriminate|];
        split; [reflexivity|]; split; [discriminate|];
        intros (d & id & [=] & _)).
  destruct (dict_get (KStr "_id") d) as [idv|] eqn:Hid.
  - destruct (as_key idv) as [k|] eqn:Hk.
    + split; [discriminate|].
      split; [intros d' [= <-]; congruence|].
      split; [intros d' id [= <-]; congruence|].
      split; [intro H; now elim (H d)|].
      split; [intros _|reflexivity].
      exists d, k. now rewrite <- (as_key_inv idv k Hk).
    + split; [now intros e self' [= _ <-]|].
      split; [intros d' [= <-]; congruence|].
      split; [reflexivity|].
      split; [intro H; now elim (H d)|].
      split; [discriminate|].
      intros (d' & id & [= <-] & Hid'). rewrite Hid' in Hid.
      injection Hid as <-. now rewrite as_key_value in Hk.
  - split; [now intros e self' [= _ <-]|].
    split; [reflexivity|].
    split; [intros d' id [= <-]; congruence|].
    split; [intro H; now elim (H d)|].
    split; [discriminate|].
    intros (d' & id & [= <-] & Hid'). congruence.
Qed.

Lemma insert_one_failure_keeps_storage_witness :
  insert_one (VDict [(KStr "name", VStr "Knitting")]) seeded_activities
  = (Raise KeyError, seeded_activities)
  /\ insert_one (VDict [(KStr "_id", VList [VStr "Knitting"])]) seeded_activities
     = (Raise TypeError, seeded_activities)
  /\ insert_one (VStr "Knitting") seeded_activities
     = (Raise TypeError, seeded_activities).
Proof.
  split; [|split].
  - apply (proj1 (proj2 (insert_one_failure_keeps_storage
                           (VDict [(KStr "name", VStr "Knitting")])
                           seeded_activities))
             [(KStr "name", VStr "Knitting")]); reflexivity.
  - apply (proj1 (proj2 (proj2 (insert_one_failure_keeps_storage
                           (VDict [(KStr "_id", VList [VStr "Knitting"])])
                           seeded_activities)))
             [(KStr "_id", VList [VStr "Knitting"])] (VList [VStr "Knitting"]));
      reflexivity.
  - apply (proj1 (proj2 (proj2 (proj2 (insert_one_failure_keeps_storage
                           (VStr "Knitting") seeded_activities))))).
    discriminate.
Defined.

(** ** [update_one]: what it touches *)

Lemma identities_dict_set (self : storage) (id : key) (doc old : dict) :
  dict_get id self = Some old ->
  identities (dict_set id doc self) = identities self.
Proof.
  unfold identities. induction self as [|[k d] rest IH]; simpl; [discriminate|].
  destruct (key_eqb id k); simpl; [reflexivity|].
  intro H. now rewrite IH.
Qed.

(** Either the call reaches a stored document and writes back what
    [apply_update] made of it, or it leaves the storage alone. *)
Lemma update_one_cases (q update : value) (self : storage) :
  (exists (id : key) (doc : dict),
     (doc_id <- py_get q "_id" VNone ;; hash_key doc_id) = Ok id
     /\ dict_get id self = Some doc
     /\ update_one q update self
        = (_ <- fst (apply_update update doc) ;; Ok {| modified_count := 1 |},
           dict_set id (snd (apply_update update doc)) self))
  \/ snd (update_one q update self) = self.
Proof.
  unfold update_one, sbind, lift.
  destruct (py_get q "_id" VNone) as [doc_id|e]; [|now right].
  cbn [bind]. destruct (hash_key doc_id) as [id|e]; [|now right].
  destruct (dict_get id self) as [doc|] eqn:Hdoc; [|now right].
  left. exists id, doc. split; [reflexivity|]. split; [exact Hdoc|].
  now destruct (apply_update update doc).
Qed.

(** X3. Whatever the query and the update, and whether it returns or
    raises, [update_one] neither adds, removes nor reorders documents
    ([count_documents] and the identities stay), and it leaves every
    document but the addressed one as it was. *)
Theorem update_one_frame (q update : value) (self : storage) :
  let self' := snd (update_one q update self) in
  identities self' = identities self
  /\ count_documents VNone self' = count_documents VNone self
  /\ forall (qd : dict) (id other : key),
       q = VDict qd ->
       dict_get (KStr "_id") qd = Some (key_value id) ->
       other <> id ->
       dict_get other self' = dict_get other self.
Proof.
  cbv zeta.
  destruct (update_one_cases q update self)
    as [(id & doc & Hq & Hdoc & Hrun)|Hsame].
  - rewrite Hrun. cbn [snd].
    assert (Hids := identities_dict_set self id
                      (snd (apply_update update doc)) doc Hdoc).
    split; [exact Hids|]. split.
    + unfold count_documents. f_equal.
      now apply dict_set_length_present with doc.
    + intros qd id' other -> Hid Hne. simpl in Hq.
      unfold dict_get_default in Hq. rewrite Hid, hash_key_value in Hq.
      injection Hq as ->. now apply dict_get_set_other.
  - rewrite Hsame. auto.
Qed.

Lemma update_one_frame_witness :
  let self' :=
    snd (update_one (by_id (KStr "Chess Club"))
           (update_field "$push" "description" (VStr "x")) seeded_activities) in
  identities self' = identities seeded_activities
  /\ count_documents VNone self' = 13%Z
  /\ dict_get (KStr "Art Club") self' = dict_get (KStr "Art Club") seeded_activities.
Proof.
  destruct (update_one_frame (by_id (KStr "Chess Club"))
              (update_field "$push" "description" (VStr "x")) seeded_activities)
    as (Hids & Hcount & Hothers).
  cbv zeta. split; [exact Hids|]. split; [exact Hcount|].
  apply (Hothers [(KStr "_id", VStr "Chess Club")] (KStr "Chess Club")
           (KStr "Art Club")); [reflexivity|reflexivity|discriminate].
Defined.

(** ** [$set] *)

Lemma dict_merge_again (d p : dict) :
  unique_keys p = true -> dict_merge (dict_merge d p) p = dict_merge d p.
Proof.
  intro Hu. set (m := dict_merge d p).
  enough (Hgo : forall p', incl p' p -> dict_merge m p' = m)
    by (apply Hgo, incl_refl).
  induction p' as [|[k v] p' IH]; intro Hincl; [reflexivity|].
  unfold dict_merge. simpl. fold (dict_merge (dict_set k v m) p').
  rewrite dict_set_same_value.
  - apply IH. intros kv Hin. apply Hincl. now right.
  - apply dict_get_merge_present; [assumption|].
    apply unique_keys_get; [assumption|]. apply Hincl. now left.
Qed.

Lemma apply_set_dict (update payload doc : dict) :
  dict_get (KStr "$set") update = Some (VDict payload) ->
  apply_update (VDict update) doc = (Ok tt, dict_merge doc payload).
Proof.
  intro H. unfold apply_update, sbind, lift. simpl. unfold dict_mem.
  now rewrite H.
Qed.

(** X4. [$set] with a dictionary payload, on a stored document: the call
    returns [modified_count = 1]; afterwards every field of the payload
    reads the payload's value, every other field reads what it read
    before, and [find_one] returns the document so changed. *)
Theorem update_one_set_fields (q update : dict) (self : storage) (id : key)
  (doc payload : dict) :
  dict_get (KStr "_id") q = Some (key_value id) ->
  dict_get id self = Some doc ->
  dict_get (KStr "$set") update = Some (VDict payload) ->
  unique_keys payload = true ->
  exists (doc' : dict) (self' : storage),
    update_one (VDict q) (VDict update) self
    = (Ok {| modified_count := 1 |}, self')
    /\ find_one (by_id id) self' = Ok (Some doc')
    /\ (forall (f : key) (v : value),
          dict_get f payload = Some v -> dict_get f doc' = Some v)
    /\ (forall f : key,
          dict_get f payload = None -> dict_get f doc' = dict_get f doc).
Proof.
  intros Hid Hdoc Hset Hu.
  exists (dict_merge doc payload), (dict_set id (dict_merge doc payload) self).
  split; [|split; [|split]].
  - rewrite (update_one_present q (VDict update) self id doc Hid Hdoc).
    now rewrite (apply_set_dict update payload doc Hset).
  - rewrite find_one_by_id. now rewrite dict_get_set_same.
  - intros f v Hf. now apply dict_get_merge_present.
  - intros f Hf. now apply dict_get_merge_absent.
Qed.

Lemma update_one_set_fields_witness :
  exists (doc' : dict) (self' : storage),
    update_one (by_id (KStr "Chess Club"))
      (VDict [(KStr "$set", VDict [(KStr "max_participants", VInt 13);
                                   (KStr "room", VStr "B12")])])
      seeded_activities
    = (Ok {| modified_count := 1 |}, self')
    /\ find_one (by_id (KStr "Chess Club")) self' = Ok (Some doc')
    /\ dict_get (KStr "max_participants") doc' = Some (VInt 13)
    /\ dict_get (KStr "room") doc' = Some (VStr "B12")
    /\ dict_get (KStr "schedule") doc'
       = Some (VStr "Mondays and Fridays, 3:15 PM - 4:45 PM").
Proof.
  destruct (dict_get (KStr "Chess Club") seeded_activities) as [doc|] eqn:E;
    [|discriminate E].
  destruct (update_one_set_fields [(KStr "_id", VStr "Chess Club")]
              [(KStr "$set", VDict [(KStr "max_participants", VInt 13);
                                    (KStr "room", VStr "B12")])]
              seeded_activities (KStr "Chess Club") doc
              [(KStr "max_participants", VInt 13); (KStr "room", VStr "B12")]
              eq_refl E eq_refl eq_refl)
    as (doc' & self' & Hrun & Hfind & Hset & Hkeep).
  exists doc', self'. split; [exact Hrun|]. split; [exact Hfind|].
  split; [now apply Hset|]. split; [now apply Hset|].
  rewrite (Hkeep (KStr "schedule") eq_refl). injection E as <-. reflexivity.
Defined.

(** X5. Applying the same [$set] a second time changes nothing: the second
    call returns [modified_count = 1] and leaves the storage the first call
    left. *)
Theorem update_one_set_idempotent (q update : dict) (self : storage) (id : key)
  (doc payload : dict) :
  dict_get (KStr "_id") q = Some (key_value id) ->
  dict_get id self = Some doc ->
  dict_get (KStr "$set") update = Some (VDict payload) ->
  unique_keys payload = true ->
  exists self' : storage,
    update_one (VDict q) (VDict update) self
    = (Ok {| modified_count := 1 |}, self')
    /\ update_one (VDict q) (VDict update) self'
       = (Ok {| modified_count := 1 |}, self').
Proof.
  intros Hid Hdoc Hset Hu.
  pose (doc' := dict_merge doc payload : dict).
  exists (dict_set id doc' self).
  assert (Hdoc' : dict_get id (dict_set id doc' self) = Some doc')
    by apply dict_get_set_same.
  split.
  - rewrite (update_one_present q (VDict update) self id doc Hid Hdoc).
    now rewrite (apply_set_dict update payload doc Hset).
  - rewrite (update_one_present q (VDict update) _ id doc' Hid Hdoc').
    rewrite (apply_set_dict update payload doc' Hset). simpl.
    unfold doc'. rewrite (dict_merge_again doc payload Hu).
    now rewrite dict_set_twice.
Qed.

Lemma update_one_set_idempotent_witness :
  exists self' : storage,
    update_one (by_id (KStr "Chess Club"))
      (VDict [(KStr "$set", VDict [(KStr "max_participants", VInt 13)])])
      seeded_activities
    = (Ok {| modified_count := 1 |}, self')
    /\ update_one (by_id (KStr "Chess Club"))
         (VDict [(KStr "$set", VDict [(KStr "max_participants", VInt 13)])])
         self'
       = (Ok {| modified_count := 1 |}, self').
Proof.
  destruct (dict_get (KStr "Chess Club") seeded_activities) as [doc|] eqn:E;
    [|discriminate E].
  exact (update_one_set_idempotent [(KStr "_id", VStr "Chess Club")]
           [(KStr "$set", VDict [(KStr "max_participants", VInt 13)])]
           seeded_activities (KStr "Chess Club") doc
           [(KStr "max_participants", VInt 13)]
           eq_refl E eq_refl eq_refl).
Defined.

(** ** [$push] and [$pull] *)

Lemma apply_push_absent (field : string) (v : value) (doc : dict) :
  dict_get (KStr field) doc = None ->
  apply_update (update_field "$push" field v) doc
  = (Ok tt, dict_set (KStr field) (VList [v]) doc).
Proof.
  intro H. unfold update_field, apply_update, sbind, lift. simpl.
  unfold sbind, sret, dict_mem. rewrite H, dict_get_set_same.
  now rewrite dict_set_twice.
Qed.

(** X6. [$push] of [v] onto a field of a stored document: when the field
    holds a list, [v] is appended to it; when the field is missing, it is
    created holding [v] alone; every other field of the document is left
    as it was, and the call returns [modified_count = 1]. *)
Theorem update_one_push_appends (q : dict) (self : storage) (id : key)
  (doc : dict) (field : string) (v : value) :
  dict_get (KStr "_id") q = Some (key_value id) ->
  dict_get id self = Some doc ->
  list_or_absent doc (KStr field, v) = true ->
  exists (doc' : dict) (self' : storage),
    update_one (VDict q) (update_field "$push" field v) self
    = (Ok {| modified_count := 1 |}, self')
    /\ dict_get id self' = Some doc'
    /\ dict_get (KStr field) doc'
       = Some (VList (match dict_get (KStr field) doc with
                      | Some (VList xs) => xs
                      | _ => []
                      end ++ [v]))
    /\ forall other : key, other <> KStr field ->
         dict_get other doc' = dict_get other doc.
Proof.
  intros Hid Hdoc Hshape. unfold list_or_absent in Hshape. simpl in Hshape.
  rewrite (update_one_present q _ self id doc Hid Hdoc).
  destruct (dict_get (KStr field) doc) as [stored|] eqn:Hfield.
  - destruct stored as [ | | | xs | ]; try discriminate Hshape.
    rewrite (apply_push_one field v doc xs Hfield). simpl.
    eexists. eexists. split; [reflexivity|].
    split; [apply dict_get_set_same|].
    split; [apply dict_get_set_same|].
    intros other Hne. now apply dict_get_set_other.
  - rewrite (apply_push_absent field v doc Hfield). simpl.
    eexists. eexists. split; [reflexivity|].
    split; [apply dict_get_set_same|].
    split; [apply dict_get_set_same|].
    intros other Hne. now apply dict_get_set_other.
Qed.

Lemma update_one_push_appends_witness :
  exists (doc' : dict) (self' : storage),
    update_one (by_id (KStr "Chess Club"))
      (update_field "$push" "waiting_list" (VStr "x@y.edu")) seeded_activities
    = (Ok {| modified_count := 1 |}, self')
    /\ dict_get (KStr "Chess Club") self' = Some doc'
    /\ dict_get (KStr "waiting_list") doc' = Some (VList [VStr "x@y.edu"])
    /\ dict_get (KStr "participants") doc'
       = Some (VList [ VStr "michael@mergington.edu";
                       VStr "daniel@mergington.edu" ]).
Proof.
  destruct (dict_get (KStr "Chess Club") seeded_activities) as [doc|] eqn:E;
    [|discriminate E].
  destruct (update_one_push_appends [(KStr "_id", VStr "Chess Club")]
              seeded_activities (KStr "Chess Club") doc "waiting_list"
              (VStr "x@y.edu") eq_refl E)
    as (doc' & self' & Hrun & Hdoc' & Hfield & Hkeep).
  { injection E as <-. reflexivity. }
  exists doc', self'. split; [exact Hrun|]. split; [exact Hdoc'|].
  injection E as <-. split; [exact Hfield|].
  rewrite (Hkeep (KStr "participants")); [reflexivity|discriminate].
Defined.

Lemma apply_pull_nothing (field : string) (v : value) (doc : dict) :
  dict_get (KStr field) doc = None
  \/ (exists xs, dict_get (KStr field) doc = Some (VList xs)
                 /\ existsb (fun item => py_eq item v) xs = false) ->
  apply_update (update_field "$pull" field v) doc = (Ok tt, doc).
Proof.
  intros [H|(xs & H & Hfresh)];
    unfold update_field, apply_update, sbind, lift; simpl;
    unfold sbind, sret; rewrite H; [reflexivity|].
  now rewrite (list_remove_absent v xs Hfresh).
Qed.

(** X7. [$pull] of a value that the list does not contain, or from a field
    that the document does not have, is not an error: the call returns
    [modified_count = 1] and the storage is exactly what it was. *)
Theorem update_one_pull_absent_is_noop (q : dict) (self : storage) (id : key)
  (doc : dict) (field : string) (v : value) :
  dict_get (KStr "_id") q = Some (key_value id) ->
  dict_get id self = Some doc ->
  dict_get (KStr field) doc = None
  \/ (exists xs, dict_get (KStr field) doc = Some (VList xs)
                 /\ existsb (fun item => py_eq item v) xs = false) ->
  update_one (VDict q) (update_field "$pull" field v) self
  = (Ok {| modified_count := 1 |}, self).
Proof.
  intros Hid Hdoc Habsent.
  rewrite (update_one_present q _ self id doc Hid Hdoc).
  rewrite (apply_pull_nothing field v doc Habsent). simpl.
  now rewrite dict_set_same_value.
Qed.

Lemma update_one_pull_absent_is_noop_witness :
  update_one (by_id (KStr "Chess Club"))
    (update_field "$pull" "participants" (VStr "nobody@mergington.edu"))
    seeded_activities
  = (Ok {| modified_count := 1 |}, seeded_activities)
  /\ update_one (by_id (KStr "Chess Club"))
       (update_field "$pull" "waiting_list" (VStr "x@y.edu")) seeded_activities
     = (Ok {| modified_count := 1 |}, seeded_activities).
Proof.
  destruct (dict_get (KStr "Chess Club") seeded_activities) as [doc|] eqn:E;
    [|discriminate E].
  split.
  - apply (update_one_pull_absent_is_noop [(KStr "_id", VStr "Chess Club")]
             seeded_activities (KStr "Chess Club") doc "participants"
             (VStr "nobody@mergington.edu") eq_refl E).
    right. exists [VStr "michael@mergington.edu"; VStr "daniel@mergington.edu"].
    injection E as <-. split; reflexivity.
  - apply (update_one_pull_absent_is_noop [(KStr "_id", VStr "Chess Club")]
             seeded_activities (KStr "Chess Club") doc "waiting_list"
             (VStr "x@y.edu") eq_refl E).
    left. injection E as <-. reflexivity.
Defined.

Lemma list_remove_first (v x : value) (pre post : list value) :
  existsb (fun item => py_eq item v) pre = false ->
  py_eq x v = true ->
  list_remove v (pre ++ x :: post) = Some (pre ++ post).
Proof.
  intros Hpre Hx. induction pre as [|p pre IH]; simpl.
  - now rewrite Hx.
  - simpl in Hpre. apply orb_false_iff in Hpre as [Hp Hpre].
    now rewrite Hp, (IH Hpre).
Qed.

(** X8. [$pull] removes one element, the first that equals the value: the
    elements before it and all the elements after it, later occurrences of
    the value included, stay in their order; the other fields stay too. *)
Theorem update_one_pull_removes_first (q : dict) (self : storage) (id : key)
  (doc : dict) (field : string) (v x : value) (pre post : list value) :
  dict_get (KStr "_id") q = Some (key_value id) ->
  dict_get id self = Some doc ->
  dict_get (KStr field) doc = Some (VList (pre ++ x :: post)) ->
  existsb (fun item => py_eq item v) pre = false ->
  py_eq x v = true ->
  exists (doc' : dict) (self' : storage),
    update_one (VDict q) (update_field "$pull" field v) self
    = (Ok {| modified_count := 1 |}, self')
    /\ dict_get id self' = Some doc'
    /\ dict_get (KStr field) doc' = Some (VList (pre ++ post))
    /\ forall other : key, other <> KStr field ->
         dict_get other doc' = dict_get other doc.
Proof.
  intros Hid Hdoc Hfield Hpre Hx.
  rewrite (update_one_present q _ self id doc Hid Hdoc).
  rewrite (apply_pull_one field v doc (pre ++ x :: post) (pre ++ post) Hfield
             (list_remove_first v x pre post Hpre Hx)). simpl.
  eexists. eexists. split; [reflexivity|].
  split; [apply dict_get_set_same|].
  split; [apply dict_get_set_same|].
  intros other Hne. now apply dict_get_set_other.
Qed.

Lemma update_one_pull_removes_first_witness :
  exists (doc' : dict) (self' : storage),
    update_one (by_id (KStr "club"))
      (update_field "$pull" "participants" (VStr "b"))
      [(KStr "club",
        [(KStr "_id", VStr "club");
         (KStr "participants",
          VList [VStr "a"; VStr "b"; VStr "c"; VStr "b"])])]
    = (Ok {| modified_count := 1 |}, self')
    /\ dict_get (KStr "club") self' = Some doc'
    /\ dict_get (KStr "participants") doc'
       = Some (VList [VStr "a"; VStr "c"; VStr "b"])
    /\ forall other : key, other <> KStr "participants" ->
         dict_get other doc'
         = dict_get other
             [(KStr "_id", VStr "club");
              (KStr "participants",
               VList [VStr "a"; VStr "b"; VStr "c"; VStr "b"])].
Proof.
  exact (update_one_pull_removes_first [(KStr "_id", VStr "club")]
           [(KStr "club",
             [(KStr "_id", VStr "club");
              (KStr "participants",
               VList [VStr "a"; VStr "b"; VStr "c"; VStr "b"])])]
           (KStr "club")
           [(KStr "_id", VStr "club");
            (KStr "participants",
             VList [VStr "a"; VStr "b"; VStr "c"; VStr "b"])]
           "participants" (VStr "b") (VStr "b")
           [VStr "a"] [VStr "c"; VStr "b"]
           eq_refl eq_refl eq_refl eq_refl eq_refl).
Defined.

Lemma push_items_app (done rest : list (key * value)) (doc : dict) :
  push_items (done ++ rest) doc
  = match push_items done doc with
    | (Ok _, doc1) => push_items rest doc1
    | (Raise e, doc1) => (Raise e, doc1)
    end.
Proof.
  revert doc. induction done as [|[f v] done IH]; intro doc; [reflexivity|].
  cbn [app push_items]. unfold sbind.
  destruct (dict_get f (if dict_mem f doc then doc
                        else dict_set f (VList []) doc)) as [stored|];
    [|reflexivity].
  destruct stored; try reflexivity. apply IH.
Qed.

(** Lists only grow under [$push], and what is no list stays. *)
Lemma push_items_grows (items : list (key * value)) :
  forall (doc doc1 : dict) (r : result unit) (f : key) (stored : value),
    push_items items doc = (r, doc1) ->
    dict_get f doc = Some stored ->
    match stored with
    | VList xs => exists ys, dict_get f doc1 = Some (VList (xs ++ ys))
    | _ => dict_get f doc1 = Some stored
    end.
Proof.
  induction items as [|[g v] items IH]; intros doc doc1 r f stored Hrun Hf.
  - injection Hrun as _ <-. destruct stored; try exact Hf.
    exists []. now rewrite app_nil_r.
  - cbn [push_items] in Hrun. unfold sbind, dict_mem in Hrun.
    destruct (key_eqb f g) eqn:E.
    + apply key_eqb_eq in E. subst g. rewrite Hf in Hrun. rewrite Hf in Hrun.
      destruct stored; try (injection Hrun as _ <-; exact Hf).
      apply IH with (f := f) (stored := VList (xs ++ [v])) in Hrun;
        [|apply dict_get_set_same].
      destruct Hrun as [ys Hys]. exists ([v] ++ ys).
      now rewrite app_assoc.
    + apply key_eqb_neq in E.
      destruct (dict_get g doc) as [at_g|] eqn:Hg.
      * rewrite Hg in Hrun.
        destruct at_g; try (injection Hrun as _ <-; destruct stored;
                             try exact Hf; exists []; now rewrite app_nil_r).
        apply IH with (f := f) (stored := stored) in Hrun; [exact Hrun|].
        now rewrite dict_get_set_other.
      * rewrite dict_get_set_same in Hrun.
        apply IH with (f := f) (stored := stored) in Hrun; [exact Hrun|].
        now rewrite !dict_get_set_other.
Qed.

Lemma push_items_pushed (items : list (key * value)) :
  forall doc doc1 : dict,
    push_items items doc = (Ok tt, doc1) ->
    forall item, In item items ->
      exists xs, dict_get (fst item) doc1 = Some (VList xs) /\ In (snd item) xs.
Proof.
  induction items as [|[g v] items IH]; intros doc doc1 Hrun item Hin;
    [contradiction|].
  cbn [push_items] in Hrun. unfold sbind in Hrun.
  match type of Hrun with
  | context [dict_get g ?d] => set (doc0 := d) in Hrun
  end.
  destruct (dict_get g doc0) as [stored|]; [|discriminate].
  destruct stored as [ | | | xs | ]; try discriminate.
  destruct Hin as [<-|Hin].
  - simpl.
    destruct (push_items_grows items _ doc1 (Ok tt) g (VList (xs ++ [v])) Hrun
                (dict_get_set_same _ _ _)) as [ys Hys].
    exists ((xs ++ [v]) ++ ys). split; [exact Hys|].
    rewrite !in_app_iff. left. right. now left.
  - now apply (IH _ doc1 Hrun).
Qed.

(** X9. A [$push] over several fields is not undone when it fails: if the
    fields pushed first are lists or missing and the next one holds
    something else, the call raises [AttributeError], and the storage keeps
    the pushes made before it. *)
Theorem update_one_push_keeps_partial (q : dict) (self : storage) (id : key)
  (doc : dict) (done rest : list (key * value)) (field : key)
  (v stored : value) :
  dict_get (KStr "_id") q = Some (key_value id) ->
  dict_get id self = Some doc ->
  forallb (list_or_absent doc) done = true ->
  dict_get field doc = Some stored ->
  (forall xs, stored <> VList xs) ->
  exists doc1 : dict,
    update_one (VDict q)
      (VDict [(KStr "$push", VDict (done ++ (field, v) :: rest))]) self
    = (Raise AttributeError, dict_set id doc1 self)
    /\ dict_get field doc1 = Some stored
    /\ forall item, In item done ->
         exists xs, dict_get (fst item) doc1 = Some (VList xs)
                    /\ In (snd item) xs.
Proof.
  intros Hid Hdoc Hdone Hfield Hstored.
  destruct (push_items_ok done doc Hdone) as [doc1 Hrun].
  assert (Hfield1 : dict_get field doc1 = Some stored).
  { pose proof (push_items_grows done doc doc1 (Ok tt) field stored Hrun Hfield)
      as H.
    destruct stored; try exact H. now elim (Hstored xs). }
  exists doc1. split; [|split; [exact Hfield1|]].
  - rewrite (update_one_present q _ self id doc Hid Hdoc).
    assert (Happly : apply_update
                       (VDict [(KStr "$push", VDict (done ++ (field, v) :: rest))])
                       doc
                     = (Raise AttributeError, doc1)).
    { unfold apply_update, sbind, lift. simpl.
      rewrite push_items_app, Hrun. cbn [push_items]. unfold sbind, dict_mem.
      rewrite Hfield1, Hfield1.
      destruct stored; try reflexivity. now elim (Hstored xs). }
    now rewrite Happly.
  - now apply (push_items_pushed done doc doc1 Hrun).
Qed.

Lemma update_one_push_keeps_partial_witness :
  exists doc1 : dict,
    update_one (by_id (KStr "Chess Club"))
      (VDict [(KStr "$push",
               VDict [ (KStr "participants", VStr "x@y.edu");
                       (KStr "description", VStr "!") ])])
      seeded_activities
    = (Raise AttributeError, dict_set (KStr "Chess Club") doc1 seeded_activities)
    /\ dict_get (KStr "description") doc1
       = Some (VStr "Learn strategies and compete in chess tournaments")
    /\ exists xs, dict_get (KStr "participants") doc1 = Some (VList xs)
                  /\ In (VStr "x@y.edu") xs.
Proof.
  destruct (dict_get (KStr "Chess Club") seeded_activities) as [doc|] eqn:E;
    [|discriminate E].
  destruct (update_one_push_keeps_partial [(KStr "_id", VStr "Chess Club")]
              seeded_activities (KStr "Chess Club") doc
              [(KStr "participants", VStr "x@y.edu")] []
              (KStr "description") (VStr "!")
              (VStr "Learn strategies and compete in chess tournaments")
              eq_refl E)
    as (doc1 & Hrun & Hkept & Hpushed).
  - injection E as <-. reflexivity.
  - injection E as <-. reflexivity.
  - discriminate.
  - exists doc1. split; [exact Hrun|]. split; [exact Hkept|].
    apply (Hpushed (KStr "participants", VStr "x@y.edu")). now left.
Defined.

(** ** [find]: what it can return *)

Lemma filter_all {A : Type} (l : list A) : filter (fun _ => true) l = l.
Proof. induction l as [|a l IH]; simpl; [reflexivity|now rewrite IH]. Qed.

Lemma find_filtered_is_filter (query : value) (self : storage) :
  forall results : list value,
    find_filtered query self = Ok results ->
    results
    = map with_id
        (filter (fun entry =>
                   match conditions <- py_items query ;;
                         doc_matches (snd entry) conditions with
                   | Ok true => true
                   | _ => false
                   end) self).
Proof.
  induction self as [|[k doc] rest IH]; intros results Hrun.
  - now injection Hrun as <-.
  - cbn [find_filtered] in Hrun. cbn [filter snd].
    destruct (py_items query) as [conditions|e]; [|discriminate].
    cbn [bind] in *.
    destruct (doc_matches doc conditions) as [matches|e]; [|discriminate].
    cbn [bind] in Hrun.
    destruct (find_filtered query rest) as [results'|e]; [|discriminate].
    cbn [bind] in Hrun. injection Hrun as <-.
    rewrite (IH results' eq_refl).
    now destruct matches.
Qed.

(** X10. Whatever the query, what [find] returns is a selection of the
    stored documents, decided document by document and kept in storage
    order, each with its key as ["_id"]: [find] never returns a document
    that is not stored, never one twice, never more than [count_documents]
    of them. *)
Theorem find_returns_stored_in_order (query : value) (self : storage)
  (results : list value) :
  find query self = Ok results ->
  (exists keep : dict -> bool,
     results = map with_id (filter (fun entry => keep (snd entry)) self))
  /\ (Z.of_nat (List.length results) <= count_documents query self)%Z.
Proof.
  intro Hrun.
  assert (Hkeep : exists keep : dict -> bool,
            results = map with_id (filter (fun entry => keep (snd entry)) self)).
  { unfold find in Hrun. destruct (negb (truthy query)).
    - injection Hrun as <-. exists (fun _ => true). now rewrite filter_all.
    - exists (fun doc => match conditions <- py_items query ;;
                               doc_matches doc conditions with
                         | Ok true => true
                         | _ => false
                         end).
      now apply find_filtered_is_filter. }
  split; [exact Hkeep|].
  destruct Hkeep as [keep ->]. unfold count_documents.
  rewrite length_map. apply inj_le, filter_length_le.
Qed.

Lemma find_returns_stored_in_order_witness :
  (exists keep : dict -> bool,
     [with_id (KStr "afternoon", afternoon_doc)]
     = map with_id (filter (fun entry => keep (snd entry)) two_documents))
  /\ (Z.of_nat (List.length [with_id (KStr "afternoon", afternoon_doc)])
      <= count_documents (VDict friday_afternoon_query) two_documents)%Z.
Proof.
  apply (find_returns_stored_in_order (VDict friday_afternoon_query)
           two_documents [with_id (KStr "afternoon", afternoon_doc)]).
  reflexivity.
Defined.

Lemma find_selected (self : storage) (q : list (key * value)) (cs : list condition) :
  Forall2 denotes q cs ->
  Forall (fun entry => Forall (readable (snd entry)) cs) self ->
  find (VDict q) self = Ok (map with_id (filter (selected cs) self)).
Proof.
  intros Hq Hself. rewrite find_dict.
  induction Hself as [|[k doc] rest Hdoc _ IH]; [reflexivity|].
  cbn [find_filtered py_items bind filter]. simpl in Hdoc.
  rewrite (doc_matches_denotes doc q cs Hq Hdoc). cbn [bind].
  rewrite IH. cbn [bind].
  change (selected cs (k, doc)) with (forallb (satisfies doc) cs).
  now destruct (forallb (satisfies doc) cs).
Qed.

Lemma forallb_permutation {A : Type} (f : A -> bool) (l l' : list A) :
  Permutation l l' -> forallb f l = forallb f l'.
Proof.
  induction 1 as [|x l l' _ IH|x y l|l l' l'' _ IH1 _ IH2]; simpl.
  - reflexivity.
  - now rewrite IH.
  - now rewrite !andb_assoc, (andb_comm (f y) (f x)).
  - now rewrite IH1.
Qed.

(** X11. For recognized conditions on documents of the data model's types,
    the order in which the query lists its conditions does not matter:
    [find] returns the same documents for every rearrangement. *)
Theorem find_condition_order_irrelevant (self : storage)
  (q q' : list (key * value)) (cs : list condition) :
  Forall2 denotes q cs ->
  Forall (fun entry => Forall (readable (snd entry)) cs) self ->
  Permutation q q' ->
  find (VDict q') self = find (VDict q) self.
Proof.
  intros Hq Hself Hperm.
  destruct (Permutation_Forall2 Hperm Hq) as (cs' & Hcs & Hq').
  assert (Hself' : Forall (fun entry => Forall (readable (snd entry)) cs') self).
  { apply Forall_forall. intros entry Hin.
    rewrite Forall_forall in Hself.
    apply (Permutation_Forall Hcs). now apply Hself. }
  rewrite (find_selected self q cs Hq Hself).
  rewrite (find_selected self q' cs' Hq' Hself').
  do 2 f_equal. apply filter_ext. intro entry. unfold selected.
  symmetry. now apply forallb_permutation.
Qed.

Lemma find_condition_order_irrelevant_witness :
  find (VDict (rev friday_afternoon_query)) two_documents
  = find (VDict friday_afternoon_query) two_documents.
Proof.
  apply (find_condition_order_irrelevant two_documents friday_afternoon_query
           (rev friday_afternoon_query)
           [DaysIn [VStr "Friday"]; StartGte "12:00"]).
  - repeat constructor.
  - repeat constructor; discriminate.
  - apply Permutation_rev.
Defined.

(** ** Documents stay under their own identity *)

Lemma key_value_not_list (k : key) (xs : list value) : key_value k <> VList xs.
Proof. destruct k; discriminate. Qed.

Lemma pull_items_keeps (items : list (key * value)) :
  forall (doc doc1 : dict) (r : result unit) (f : key) (stored : value),
    pull_items items doc = (r, doc1) ->
    dict_get f doc = Some stored ->
    (forall xs, stored <> VList xs) ->
    dict_get f doc1 = Some stored.
Proof.
  induction items as [|[g v] items IH]; intros doc doc1 r f stored Hrun Hf Hno.
  - now injection Hrun as _ <-.
  - cbn [pull_items] in Hrun. unfold sbind in Hrun.
    destruct (dict_get g doc) as [at_g|] eqn:Hg.
    + destruct at_g as [ | | | xs | ];
        try (injection Hrun as _ <-; exact Hf).
      assert (Hne : f <> g).
      { intros ->. rewrite Hf in Hg. injection Hg as ->. now elim (Hno xs). }
      destruct (list_remove v xs) as [xs'|].
      * apply (IH _ doc1 r f stored Hrun); [|exact Hno].
        now rewrite dict_get_set_other.
      * now apply (IH _ doc1 r f stored Hrun).
    + now apply (IH _ doc1 r f stored Hrun).
Qed.

Lemma apply_update_keeps_id (update doc : dict) (id : key) :
  match dict_get (KStr "$set") update with
  | None => True
  | Some (VDict payload) => dict_get (KStr "_id") payload = None
  | Some _ => False
  end ->
  dict_get (KStr "_id") doc = Some (key_value id) ->
  dict_get (KStr "_id") (snd (apply_update (VDict update) doc))
  = Some (key_value id).
Proof.
  intros Hset Hid. unfold apply_update, sbind, lift. simpl. unfold dict_mem.
  destruct (dict_get (KStr "$set") update) as [payload|].
  { destruct payload; try contradiction. simpl.
    now rewrite dict_get_merge_absent. }
  destruct (dict_get (KStr "$push") update) as [payload|].
  { destruct payload as [ | | | | items]; try exact Hid. simpl.
    destruct (push_items items doc) as [r doc1] eqn:Hrun. simpl.
    pose proof (push_items_grows items doc doc1 r (KStr "_id") (key_value id)
                  Hrun Hid) as H.
    now destruct id. }
  destruct (dict_get (KStr "$pull") update) as [payload|].
  { destruct payload as [ | | | | items]; try exact Hid. simpl.
    destruct (pull_items items doc) as [r doc1] eqn:Hrun. simpl.
    apply (pull_items_keeps items doc doc1 r (KStr "_id") (key_value id)
             Hrun Hid).
    apply key_value_not_list. }
  exact Hid.
Qed.

Lemma self_identified_dict_set (self : storage) (id : key) (doc : dict) :
  self_identified self ->
  dict_get (KStr "_id") doc = Some (key_value id) ->
  self_identified (dict_set id doc self).
Proof.
  unfold self_identified. intros Hself Hdoc.
  induction Hself as [|[k d] rest Hd Hrest IH]; simpl.
  - now repeat constructor.
  - destruct (key_eqb id k) eqn:E.
    + apply key_eqb_eq in E. subst k. constructor; [exact Hdoc|exact Hrest].
    + constructor; [exact Hd|exact IH].
Qed.

Lemma self_identified_seeds (hash_password : string -> string) :
  self_identified seeded_activities
  /\ self_identified (seeded_teachers hash_password).
Proof. split; repeat constructor. Qed.

(** X12. That every document sits under the identity its own ["_id"] names
    is an invariant of the collection: [insert_one] keeps it, whether it
    succeeds or raises; so does [update_one] for every query, as long as
    the update carries no [$set] that rebinds ["_id"] ([$push] and [$pull]
    cannot touch it); and so does [init_database].  Where it holds,
    [find] with no query returns the documents exactly as they are
    stored. *)
Theorem self_identified_preserved (self : storage) :
  self_identified self ->
  (forall document : value, self_identified (snd (insert_one document self)))
  /\ (forall (q : value) (update : dict),
        match dict_get (KStr "$set") update with
        | None => True
        | Some (VDict payload) => dict_get (KStr "_id") payload = None
        | Some _ => False
        end ->
        self_identified (snd (update_one q (VDict update) self)))
  /\ (forall (hash_password : string -> string) (teachers : storage),
        self_identified teachers ->
        let db := snd (init_database hash_password
                         {| activities_collection := self;
                            teachers_collection := teachers |}) in
        self_identified (activities_collection db)
        /\ self_identified (teachers_collection db))
  /\ find VNone self = Ok (map (fun entry => VDict (snd entry)) self).
Proof.
  intro Hself. split; [|split; [|split]].
  - intro document. unfold insert_one, sbind, lift.
    destruct (py_getitem document "_id") as [doc_id|e] eqn:Hget; [|exact Hself].
    destruct (hash_key doc_id) as [k|e] eqn:Hk; [|exact Hself].
    destruct document as [ | | | | d]; try exact Hself.
    simpl. apply self_identified_dict_set; [exact Hself|].
    simpl in Hget. destruct (dict_get (KStr "_id") d) as [v|]; [|discriminate].
    injection Hget as ->. unfold hash_key in Hk.
    destruct (as_key doc_id) as [k'|] eqn:Hk'; [|discriminate].
    injection Hk as ->. now rewrite (as_key_inv doc_id k Hk').
  - intros q update Hset.
    destruct (update_one_cases q (VDict update) self)
      as [(id & doc & _ & Hdoc & Hrun)|Hsame]; [|now rewrite Hsame].
    rewrite Hrun. cbn [snd]. apply self_identified_dict_set; [exact Hself|].
    apply apply_update_keeps_id; [exact Hset|].
    unfold self_identified in Hself. rewrite Forall_forall in Hself.
    clear Hrun. induction self as [|[k d] rest IH]; [discriminate|].
    simpl in Hdoc. destruct (key_eqb id k) eqn:E.
    + injection Hdoc as <-. apply key_eqb_eq in E. subst k.
      apply (Hself (id, d)). now left.
    + apply IH; [|exact Hdoc]. intros entry Hin. apply Hself. now right.
  - intros hash_password teachers Hteachers. cbv zeta.
    rewrite init_database_run. simpl.
    destruct (self_identified_seeds hash_password) as [Ha Ht].
    split; [now destruct self|now destruct teachers].
  - unfold find. simpl. f_equal. apply map_ext_in. intros [k d] Hin.
    unfold self_identified in Hself. rewrite Forall_forall in Hself.
    apply with_id_of_inserted. apply (Hself (k, d) Hin).
Qed.

Lemma self_identified_preserved_witness :
  self_identified
    (snd (update_one (by_id (KStr "Chess Club"))
            (VDict [(KStr "$push", VDict [(KStr "_id", VStr "x")])])
            seeded_activities))
  /\ find VNone seeded_activities
     = Ok (map (fun entry => VDict (snd entry)) seeded_activities).
Proof.
  destruct (self_identified_preserved seeded_activities
              (proj1 (self_identified_seeds (fun p => p))))
    as (_ & Hupdate & _ & Hfind).
  split; [|exact Hfind].
  apply (Hupdate (by_id (KStr "Chess Club"))
           [(KStr "$push", VDict [(KStr "_id", VStr "x")])]).
  exact I.
Defined.

(** ** [aggregate]: a canonical answer *)

Lemma string_lt_trans (a b c : string) :
  string_lt a b -> string_lt b c -> string_lt a c.
Proof.
  unfold string_lt, String.ltb. intros Hab Hbc.
  destruct (String.compare a b) eqn:Eab; try discriminate.
  destruct (String.compare b c) eqn:Ebc; try discriminate.
  apply OrderedTypeEx.String_as_OT.cmp_lt in Eab, Ebc.
  pose proof (OrderedTypeEx.String_as_OT.lt_trans _ _ _ Eab Ebc) as Hac.
  apply OrderedTypeEx.String_as_OT.cmp_lt in Hac.
  unfold OrderedTypeEx.String_as_OT.cmp in Hac. now rewrite Hac.
Qed.

Lemma string_lt_irrefl (a : string) : ~ string_lt a a.
Proof.
  unfold string_lt, String.ltb. intro H.
  destruct (String.compare a a) eqn:E; try discriminate.
  pose proof (String.compare_antisym a a) as Ha.
  rewrite E in Ha. discriminate.
Qed.

Lemma sorted_head_least (a : string) (l : list string) :
  Sorted string_lt (a :: l) -> forall x, In x l -> string_lt a x.
Proof.
  intros Hs x Hin. apply Sorted_StronglySorted in Hs.
  - apply StronglySorted_inv in Hs as [_ Hall].
    rewrite Forall_forall in Hall. now apply Hall.
  - intros u v w. apply string_lt_trans.
Qed.

(** Two increasing lists with the same elements are the same list. *)
Lemma sorted_same_elements (l : list string) :
  forall l' : list string,
    Sorted string_lt l -> Sorted string_lt l' ->
    (forall x, In x l <-> In x l') -> l = l'.
Proof.
  induction l as [|a t IH]; intros [|b t'] Hl Hl' Hsame.
  - reflexivity.
  - destruct (proj2 (Hsame b) (or_introl eq_refl)).
  - destruct (proj1 (Hsame a) (or_introl eq_refl)).
  - assert (Hab : a = b).
    { destruct (proj1 (Hsame a) (or_introl eq_refl)) as [E|Ha]; [now symmetry|].
      destruct (proj2 (Hsame b) (or_introl eq_refl)) as [E|Hb]; [exact E|].
      exfalso. apply (string_lt_irrefl a).
      apply string_lt_trans with b.
      - now apply (sorted_head_least a t Hl).
      - now apply (sorted_head_least b t' Hl'). }
    subst b. f_equal. apply IH.
    + now apply Sorted_inv in Hl.
    + now apply Sorted_inv in Hl'.
    + intro x. split; intro Hx.
      * destruct (proj1 (Hsame x) (or_intror Hx)) as [E|Hx']; [|exact Hx'].
        subst x. exfalso. apply (string_lt_irrefl a).
        now apply (sorted_head_least a t Hl).
      * destruct (proj2 (Hsame x) (or_intror Hx)) as [E|Hx']; [|exact Hx'].
        subst x. exfalso. apply (string_lt_irrefl a).
        now apply (sorted_head_least a t' Hl').
Qed.

Lemma aggregate_names (pipeline : value) (self : storage) :
  Forall (fun entry => day_names_of (snd entry) <> None) self ->
  exists names : list string,
    aggregate pipeline self = Ok (map day_record names)
    /\ Sorted string_lt names
    /\ forall day, In day names <->
         exists entry ns,
           In entry self /\ day_names_of (snd entry) = Some ns /\ In day ns.
Proof.
  intro Hshape.
  assert (Hdocs : Forall (fun doc => day_names_of doc <> None) (map snd self)).
  { apply Forall_map. exact Hshape. }
  destruct (collect_days_strs (map snd self) Hdocs [] (NoDup_nil _))
    as (days & Hcollect & Hnd & Hin).
  destruct (py_sorted_strs days Hnd) as (names & Hsort & Hsorted & Hperm).
  exists names. unfold aggregate.
  change (@nil key) with (map KStr []). rewrite Hcollect. cbn [bind].
  rewrite Hsort. cbn [bind]. split; [now rewrite map_map|].
  split; [exact Hsorted|].
  intro day. split.
  - intro Hday. apply (Permutation_in _ Hperm) in Hday.
    apply Hin in Hday as [[]|(doc & ns & Hdoc & Hns & Hx)].
    apply in_map_iff in Hdoc as (entry & <- & Hentry).
    now exists entry, ns.
  - intros (entry & ns & Hentry & Hns & Hx).
    apply (Permutation_in _ (Permutation_sym Hperm)). apply Hin. right.
    exists (snd entry), ns. split; [now apply in_map|auto].
Qed.

(** X13. What [aggregate] returns depends on the days the documents hold
    and on nothing else: not on the order in which the documents were
    inserted, not on the pipeline it is given. *)
Theorem aggregate_order_irrelevant (pipeline pipeline' : value)
  (self self' : storage) :
  Forall (fun entry => day_names_of (snd entry) <> None) self ->
  Permutation self self' ->
  aggregate pipeline' self' = aggregate pipeline self.
Proof.
  intros Hshape Hperm.
  assert (Hshape' : Forall (fun entry => day_names_of (snd entry) <> None) self')
    by apply (Permutation_Forall Hperm Hshape).
  destruct (aggregate_names pipeline self Hshape) as (names & -> & Hs & Hin).
  destruct (aggregate_names pipeline' self' Hshape') as (names' & -> & Hs' & Hin').
  do 2 f_equal. apply sorted_same_elements; [exact Hs'|exact Hs|].
  intro day. rewrite Hin, Hin'. split.
  - intros (entry & ns & Hentry & H). exists entry, ns.
    split; [|exact H]. now apply (Permutation_in _ (Permutation_sym Hperm)).
  - intros (entry & ns & Hentry & H). exists entry, ns.
    split; [|exact H]. now apply (Permutation_in _ Hperm).
Qed.

Lemma aggregate_order_irrelevant_witness :
  aggregate (VList []) (rev seeded_activities)
  = aggregate VNone seeded_activities.
Proof.
  apply (aggregate_order_irrelevant VNone (VList []) seeded_activities
           (rev seeded_activities)).
  - repeat constructor; discriminate.
  - apply Permutation_rev.
Defined.

Lemma day_names_days (doc : dict) (ns : list string) :
  day_names_of doc = Some ns -> days_of doc = Some (map VStr ns).
Proof.
  unfold day_names_of. destruct (days_of doc) as [days|]; [|discriminate].
  intro H. now rewrite (strings_of_map days ns H).
Qed.

Lemma selected_day (entry : key * dict) (ns : list string) (day : string) :
  day_names_of (snd entry) = Some ns ->
  selected [DaysIn [VStr day]] entry = true <-> In day ns.
Proof.
  intro Hns. unfold selected. cbn [forallb satisfies].
  rewrite (day_names_days _ ns Hns). simpl. rewrite !orb_false_r, andb_true_r.
  rewrite existsb_exists. split.
  - intros (d & Hd & E). apply in_map_iff in Hd as (n & <- & Hn).
    apply py_eq_str in E. now subst.
  - intro Hin. exists (VStr day). split; [now apply in_map|].
    now apply py_eq_str.
Qed.

Lemma find_day (day : string) (self : storage) :
  Forall (fun entry => day_names_of (snd entry) <> None) self ->
  find (day_query day) self
  = Ok (map with_id (filter (selected [DaysIn [VStr day]]) self)).
Proof.
  intro Hshape. unfold day_query. apply find_selected.
  - repeat constructor.
  - apply Forall_forall. intros entry Hin. rewrite Forall_forall in Hshape.
    constructor; [|constructor]. simpl. intro Hdays.
    apply (Hshape entry Hin). unfold day_names_of. now rewrite Hdays.
Qed.

(** X14. [aggregate] and [find] agree on the days: a day is among the
    records [aggregate] returns exactly when [find], asked for the
    documents held on that day, returns at least one. *)
Theorem aggregate_days_select_documents (pipeline : value) (self : storage) :
  Forall (fun entry => day_names_of (snd entry) <> None) self ->
  exists records : list value,
    aggregate pipeline self = Ok records
    /\ forall day : string,
         exists results : list value,
           find (day_query day) self = Ok results
           /\ (In (day_record day) records <-> results <> []).
Proof.
  intro Hshape.
  destruct (aggregate_names pipeline self Hshape) as (names & Hrun & _ & Hin).
  exists (map day_record names). split; [exact Hrun|].
  intro day. eexists. split; [now apply find_day|].
  rewrite Forall_forall in Hshape. split.
  - intro Hrec. apply in_map_iff in Hrec as (day' & [= ->] & Hday).
    apply Hin in Hday as (entry & ns & Hentry & Hns & Hx).
    intro Hempty. apply map_eq_nil in Hempty.
    assert (Hsel : In entry (filter (selected [DaysIn [VStr day]]) self)).
    { apply filter_In. split; [exact Hentry|]. now apply (selected_day entry ns). }
    rewrite Hempty in Hsel. contradiction.
  - intro Hne.
    destruct (filter (selected [DaysIn [VStr day]]) self) as [|entry rest] eqn:E;
      [now elim Hne|].
    assert (Hsel : In entry (filter (selected [DaysIn [VStr day]]) self))
      by (rewrite E; now left).
    apply filter_In in Hsel as [Hentry Hsel].
    destruct (day_names_of (snd entry)) as [ns|] eqn:Hns;
      [|now elim (Hshape entry Hentry)].
    apply in_map. apply Hin. exists entry, ns.
    split; [exact Hentry|]. split; [exact Hns|].
    now apply (selected_day entry ns).
Qed.

Lemma aggregate_days_select_documents_witness :
  exists records : list value,
    aggregate VNone seeded_activities = Ok records
    /\ forall day : string,
         exists results : list value,
           find (day_query day) seeded_activities = Ok results
           /\ (In (day_record day) records <-> results <> []).
Proof.
  apply (aggregate_days_select_documents VNone seeded_activities).
  repeat constructor; discriminate.
Defined.

(** ** Seeding from a catalog *)

Lemma dict_get_app_fresh {V : Type} (d : list (key * V)) (k k' : key) (v : V) :
  dict_get k d = None -> k <> k' -> dict_get k (d ++ [(k', v)]) = None.
Proof.
  intros Hd Hne. induction d as [|[k0 v0] d IH]; simpl in *.
  - apply key_eqb_neq in Hne. now rewrite Hne.
  - destruct (key_eqb k k0); [discriminate|]. now apply IH.
Qed.

Lemma dict_get_app_present {V : Type} (d d' : list (key * V)) (k : key) (v : V) :
  dict_get k d = Some v -> dict_get k (d ++ d') = Some v.
Proof.
  induction d as [|[k0 v0] d IH]; simpl; [discriminate|].
  destruct (key_eqb k k0); [auto|exact IH].
Qed.

Lemma unique_keys_fresh {V : Type} (d : list (key * V)) (k : key) (v : V) :
  dict_get k d = None -> In (k, v) d -> False.
Proof.
  induction d as [|[k0 v0] d IH]; simpl; [auto|].
  destruct (key_eqb k k0) eqn:E; [discriminate|].
  intros Hd [[= -> ->]|Hin]; [|now apply IH].
  now rewrite key_eqb_refl in E.
Qed.

(** The loop of [init_database] over a catalog, started on a storage that
    holds none of its names, appends one document per entry. *)
Lemma seed_activities_appends (items : list (key * dict)) :
  forall self : storage,
    unique_keys items = true ->
    Forall (fun item => dict_get (KStr "_id") (snd item) = None
                        /\ dict_get (fst item) self = None) items ->
    seed_activities items self
    = (Ok tt,
       self ++ map (fun item =>
                      (fst item,
                       dict_merge [(KStr "_id", key_value (fst item))] (snd item)))
                   items).
Proof.
  induction items as [|[name details] items IH]; intros self Hu Hitems.
  - simpl. now rewrite app_nil_r.
  - simpl in Hu. apply andb_true_iff in Hu as [Hfresh Hu].
    inversion Hitems as [|? ? [Hnoid Hname] Hrest]; subst. simpl in Hnoid, Hname.
    cbn [seed_activities]. unfold sbind.
    rewrite (insert_one_run _ name self).
    + rewrite (dict_set_fresh self name _ Hname).
      rewrite IH; [|exact Hu|].
      * cbn [map fst snd]. now rewrite <- app_assoc.
      * apply Forall_forall. intros [n d] Hin. rewrite Forall_forall in Hrest.
        destruct (Hrest (n, d) Hin) as [Hn Hs]. simpl in Hn, Hs. simpl.
        split; [exact Hn|].
        apply dict_get_app_fresh; [exact Hs|].
        intros ->. unfold dict_mem in Hfresh.
        destruct (dict_get name items) eqn:E; [discriminate|].
        exact (unique_keys_fresh items name d E Hin).
    + rewrite (dict_get_merge_absent _ details (KStr "_id") Hnoid). reflexivity.
Qed.

Lemma dict_get_seeded (items : list (key * dict)) (name : key) (details : dict) :
  unique_keys items = true -> In (name, details) items ->
  dict_get name
    (map (fun item =>
            (fst item,
             dict_merge [(KStr "_id", key_value (fst item))] (snd item)))
         items)
  = Some (dict_merge [(KStr "_id", key_value name)] details).
Proof.
  induction items as [|[n d] items IH]; simpl; [contradiction|].
  intros Hu [[= -> ->]|Hin].
  - now rewrite key_eqb_refl.
  - apply andb_true_iff in Hu as [Hfresh Hu].
    destruct (key_eqb name n) eqn:E; [|now apply IH].
    apply key_eqb_eq in E. subst n. unfold dict_mem in Hfresh.
    destruct (dict_get name items) eqn:Hget; [discriminate|].
    now elim (unique_keys_fresh items name details Hget Hin).
Qed.

(** X15. Seeding an empty collection from a catalog whose names are
    distinct and whose details carry no ["_id"] of their own never fails;
    the collection then holds one document per entry, in catalog order,
    and [find_one] by an entry's name returns that entry's details with
    ["_id"] set to the name. *)
Theorem seed_activities_round_trip (items : list (key * dict)) :
  unique_keys items = true ->
  Forall (fun item => dict_get (KStr "_id") (snd item) = None) items ->
  exists self : storage,
    seed_activities items [] = (Ok tt, self)
    /\ identities self = map fst items
    /\ count_documents VNone self = Z.of_nat (List.length items)
    /\ forall (name : key) (details : dict),
         In (name, details) items ->
         find_one (by_id name) self
         = Ok (Some (dict_merge [(KStr "_id", key_value name)] details)).
Proof.
  intros Hu Hnoid. eexists. split.
  - apply (seed_activities_appends items [] Hu).
    apply Forall_forall. intros item Hin. rewrite Forall_forall in Hnoid.
    split; [now apply Hnoid|reflexivity].
  - cbn [app]. split; [|split].
    + unfold identities. rewrite map_map. reflexivity.
    + unfold count_documents. now rewrite length_map.
    + intros name details Hin. rewrite find_one_by_id. f_equal.
      exact (dict_get_seeded items name details Hu Hin).
Qed.

Lemma seed_activities_round_trip_witness :
  exists self : storage,
    seed_activities initial_activities [] = (Ok tt, self)
    /\ identities self = map fst initial_activities
    /\ count_documents VNone self = 13%Z
    /\ forall (name : key) (details : dict),
         In (name, details) initial_activities ->
         find_one (by_id name) self
         = Ok (Some (dict_merge [(KStr "_id", key_value name)] details)).
Proof.
  apply (seed_activities_round_trip initial_activities).
  - reflexivity.
  - repeat constructor.
Defined.

(** ** Queries by identity look at ["_id"] only *)

(** X16. [update_one], and [find_one] on a non-empty query, read the
    query's ["_id"] and nothing else: every other field of the query is
    ignored, so the call behaves as on the query reduced to its ["_id"]
    ([None] when it has none).  In particular a query without ["_id"]
    finds nothing and updates nothing, unless a document is stored under
    [None]. *)
Theorem identity_queries_read_id_only (q : dict) (self : storage) :
  (forall update : value,
     update_one (VDict q) update self
     = update_one
         (VDict [(KStr "_id", dict_get_default (KStr "_id") VNone q)])
         update self)
  /\ (q <> [] ->
      find_one (VDict q) self
      = find_one (VDict [(KStr "_id", dict_get_default (KStr "_id") VNone q)])
          self)
  /\ (dict_get (KStr "_id") q = None -> dict_get KNone self = None ->
      find_one (VDict q) self = Ok None
      /\ forall update : value,
           update_one (VDict q) update self
           = (Ok {| modified_count := 0 |}, self)).
Proof.
  split; [|split].
  - intro update. unfold update_one, sbind, lift. simpl.
    unfold dict_get_default. simpl. reflexivity.
  - intro Hne. unfold find_one. destruct q as [|entry q]; [now elim Hne|].
    cbn [truthy negb py_get bind]. unfold dict_get_default. simpl. reflexivity.
  - intros Hnoid Hnone. split.
    + unfold find_one. destruct q as [|entry q]; [reflexivity|].
      cbn [truthy negb py_get bind]. unfold dict_get_default.
      rewrite Hnoid. simpl. now rewrite Hnone.
    + intro update. unfold update_one, sbind, lift. simpl.
      unfold dict_get_default. rewrite Hnoid. simpl. now rewrite Hnone.
Qed.

Lemma identity_queries_read_id_only_witness :
  find_one (VDict [(KStr "_id", VStr "Chess Club"); (KStr "max_participants", VInt 99)])
    seeded_activities
  = find_one (by_id (KStr "Chess Club")) seeded_activities
  /\ find_one (VDict [(KStr "description", VStr "Chess Club")]) seeded_activities
     = Ok None.
Proof.
  split.
  - apply (proj1 (proj2 (identity_queries_read_id_only
             [(KStr "_id", VStr "Chess Club"); (KStr "max_participants", VInt 99)]
             seeded_activities))).
    discriminate.
  - apply (proj2 (proj2 (identity_queries_read_id_only
             [(KStr "description", VStr "Chess Club")] seeded_activities)));
      reflexivity.
Defined.

(** ** Identity and position of a stored document *)

Lemma dict_get_In {V : Type} (d : list (key * V)) (k : key) (v : V) :
  dict_get k d = Some v -> In (k, v) d.
Proof.
  induction d as [|[k0 v0] d IH]; simpl; [discriminate|].
  destruct (key_eqb k k0) eqn:E.
  - apply key_eqb_eq in E. subst k0. intros [= ->]. now left.
  - intro H. right. now apply IH.
Qed.

(** X17. [$set] of ["_id"] does not move a document: the call succeeds,
    the document then names the new identity in its ["_id"], but it stays
    stored, found by [find_one] and listed by [find], under the old one;
    what the storage holds under any other identity, the new one included,
    is as before. *)
Theorem update_one_set_id_does_not_move (q : dict) (self : storage) (id : key)
  (doc : dict) (new : value) :
  dict_get (KStr "_id") q = Some (key_value id) ->
  dict_get id self = Some doc ->
  exists (doc' : dict) (self' : storage) (results : list value),
    update_one (VDict q) (update_field "$set" "_id" new) self
    = (Ok {| modified_count := 1 |}, self')
    /\ dict_get (KStr "_id") doc' = Some new
    /\ find_one (by_id id) self' = Ok (Some doc')
    /\ identities self' = identities self
    /\ (forall other : key, other <> id ->
          find_one (by_id other) self' = find_one (by_id other) self)
    /\ find VNone self' = Ok results
    /\ In (VDict (dict_set (KStr "_id") (key_value id) doc')) results.
Proof.
  intros Hid Hdoc.
  pose (doc' := dict_merge doc [(KStr "_id", new)] : dict).
  exists doc', (dict_set id doc' self), (map with_id (dict_set id doc' self)).
  assert (Hdoc' : dict_get id (dict_set id doc' self) = Some doc')
    by apply dict_get_set_same.
  split; [|split; [|split; [|split; [|split; [|split]]]]].
  - rewrite (update_one_present q _ self id doc Hid Hdoc).
    unfold update_field.
    now rewrite (apply_set_dict [(KStr "$set", VDict [(KStr "_id", new)])]
                   [(KStr "_id", new)] doc eq_refl).
  - apply dict_get_set_same.
  - rewrite find_one_by_id. now rewrite Hdoc'.
  - now apply identities_dict_set with doc.
  - intros other Hne. rewrite !find_one_by_id.
    now rewrite dict_get_set_other.
  - reflexivity.
  - apply (in_map with_id _ (id, doc')). now apply dict_get_In.
Qed.

Lemma update_one_set_id_does_not_move_witness :
  exists (doc' : dict) (self' : storage) (results : list value),
    update_one (by_id (KStr "Chess Club"))
      (update_field "$set" "_id" (VStr "Chess Society")) seeded_activities
    = (Ok {| modified_count := 1 |}, self')
    /\ dict_get (KStr "_id") doc' = Some (VStr "Chess Society")
    /\ find_one (by_id (KStr "Chess Club")) self' = Ok (Some doc')
    /\ find_one (by_id (KStr "Chess Society")) self' = Ok None
    /\ find VNone self' = Ok results
    /\ In (VDict (dict_set (KStr "_id") (VStr "Chess Club") doc')) results.
Proof.
  destruct (dict_get (KStr "Chess Club") seeded_activities) as [doc|] eqn:E;
    [|discriminate E].
  destruct (update_one_set_id_does_not_move [(KStr "_id", VStr "Chess Club")]
              seeded_activities (KStr "Chess Club") doc (VStr "Chess Society")
              eq_refl E)
    as (doc' & self' & results & Hrun & Hnew & Hold & _ & Hothers & Hfind & Hin).
  exists doc', self', results.
  split; [exact Hrun|]. split; [exact Hnew|]. split; [exact Hold|].
  split; [|split; [exact Hfind|exact Hin]].
  rewrite (Hothers (KStr "Chess Society")); [reflexivity|discriminate].
Defined.

Lemma identities_dict_set_fresh (self : storage) (id : key) (doc : dict) :
  dict_get id self = None ->
  identities (dict_set id doc self) = identities self ++ [id].
Proof.
  intro H. unfold identities. rewrite (dict_set_fresh self id doc H).
  now rewrite map_app.
Qed.

Lemma find_all_ids (self : storage) :
  map (fun returned => py_getitem returned "_id") (map with_id self)
  = map (fun id => Ok (key_value id)) (identities self).
Proof.
  unfold identities. rewrite !map_map. apply map_ext. intros [k d].
  unfold with_id. simpl. now rewrite dict_get_set_same.
Qed.

(** X18. The order in which [find] lists the documents is the order of
    first insertion: inserting a document under a new identity puts it
    last, and inserting one under an identity already stored replaces the
    document where it stands, without moving it to the end. *)
Theorem insert_one_keeps_position (self : storage) (document : dict) (id : key) :
  dict_get (KStr "_id") document = Some (key_value id) ->
  exists (self' : storage) (results : list value),
    insert_one (VDict document) self = (Ok tt, self')
    /\ find VNone self' = Ok results
    /\ map (fun returned => py_getitem returned "_id") results
       = map (fun id => Ok (key_value id))
           (if dict_mem id self then identities self
            else identities self ++ [id]).
Proof.
  intro Hid.
  exists (dict_set id document self), (map with_id (dict_set id document self)).
  split; [now apply insert_one_run|]. split; [reflexivity|].
  rewrite find_all_ids. f_equal. unfold dict_mem.
  destruct (dict_get id self) as [old|] eqn:E.
  - now apply identities_dict_set with old.
  - now apply identities_dict_set_fresh.
Qed.

Lemma insert_one_keeps_position_witness :
  exists (self' : storage) (results : list value),
    insert_one (VDict [(KStr "_id", VStr "afternoon"); (KStr "room", VStr "B12")])
      two_documents = (Ok tt, self')
    /\ find VNone self' = Ok results
    /\ map (fun returned => py_getitem returned "_id") results
       = [Ok (VStr "afternoon"); Ok (VStr "morning")].
Proof.
  exact (insert_one_keeps_position two_documents
           [(KStr "_id", VStr "afternoon"); (KStr "room", VStr "B12")]
           (KStr "afternoon") eq_refl).
Defined.

(** ** Seeding the teachers *)

Lemma seed_teachers_app (done rest : list dict) (self : storage) :
  seed_teachers (done ++ rest) self
  = match seed_teachers done self with
    | (Ok _, self1) => seed_teachers rest self1
    | (Raise e, self1) => (Raise e, self1)
    end.
Proof.
  revert self. induction done as [|teacher done IH]; intro self; [reflexivity|].
  cbn [app seed_teachers]. unfold sbind, lift.
  destruct (py_getitem (VDict teacher) "username") as [username|e];
    [|reflexivity].
  destruct (insert_one (VDict (dict_merge [(KStr "_id", username)] teacher)) self)
    as [[u|e] self1]; [apply IH|reflexivity].
Qed.

Lemma seed_teachers_appends (teachers : list dict) (names : list key) :
  Forall2 (fun teacher name =>
             dict_get (KStr "username") teacher = Some (key_value name)
             /\ dict_get (KStr "_id") teacher = None) teachers names ->
  forall self : storage,
    NoDup names ->
    (forall name, In name names -> dict_get name self = None) ->
    exists self' : storage,
      seed_teachers teachers self = (Ok tt, self')
      /\ identities self' = identities self ++ names
      /\ (forall k v, dict_get k self = Some v -> dict_get k self' = Some v)
      /\ Forall2 (fun teacher name =>
                    dict_get name self'
                    = Some (dict_merge [(KStr "_id", key_value name)] teacher))
           teachers names.
Proof.
  induction 1 as [|teacher name teachers names [Huser Hnoid] _ IH];
    intros self Hnd Hfresh.
  - exists self. split; [reflexivity|]. split; [now rewrite app_nil_r|].
    split; [auto|constructor].
  - apply NoDup_cons_iff in Hnd as [Hname Hnd].
    pose (doc := dict_merge [(KStr "_id", key_value name)] teacher : dict).
    assert (Hself : dict_get name self = None) by (apply Hfresh; now left).
    destruct (IH (self ++ [(name, doc)]) Hnd)
      as (self' & Hrun & Hids & Hkeep & Hall).
    { intros n Hn. apply dict_get_app_fresh; [apply Hfresh; now right|].
      intros ->. contradiction. }
    exists self'. split; [|split; [|split]].
    + cbn [seed_teachers]. unfold sbind, lift. simpl. rewrite Huser.
      rewrite (insert_one_run _ name self).
      * rewrite (dict_set_fresh self name _ Hself). exact Hrun.
      * rewrite (dict_get_merge_absent _ teacher (KStr "_id") Hnoid).
        reflexivity.
    + rewrite Hids. unfold identities. rewrite map_app. simpl.
      now rewrite <- app_assoc.
    + intros k v Hk. apply Hkeep. now apply dict_get_app_present.
    + constructor; [|exact Hall].
      apply Hkeep. rewrite <- (dict_set_fresh self name doc Hself).
      apply dict_get_set_same.
Qed.

(** X19. Seeding an empty teachers collection from a list of teachers with
    distinct usernames (and no ["_id"] of their own) stores each under its
    username, in order, and [find_one] by username returns the teacher
    with ["_id"] set to it.  If the next teacher has no ["username"], the
    loop stops there with [KeyError], and the teachers seeded before it
    stay in the collection. *)
Theorem seed_teachers_round_trip (teachers : list dict) (names : list key) :
  Forall2 (fun teacher name =>
             dict_get (KStr "username") teacher = Some (key_value name)
             /\ dict_get (KStr "_id") teacher = None) teachers names ->
  NoDup names ->
  exists self : storage,
    seed_teachers teachers [] = (Ok tt, self)
    /\ identities self = names
    /\ Forall2 (fun teacher name =>
                  find_one (by_id name) self
                  = Ok (Some (dict_merge [(KStr "_id", key_value name)] teacher)))
         teachers names
    /\ forall (nameless : dict) (rest : list dict),
         dict_get (KStr "username") nameless = None ->
         seed_teachers (teachers ++ nameless :: rest) [] = (Raise KeyError, self).
Proof.
  intros Hteachers Hnd.
  destruct (seed_teachers_appends teachers names Hteachers [] Hnd)
    as (self & Hrun & Hids & _ & Hall); [reflexivity|].
  exists self. split; [exact Hrun|]. split; [exact Hids|]. split.
  - clear Hrun Hids Hteachers Hnd.
    induction Hall as [|teacher name teachers names Hget _ IH]; constructor;
      [|exact IH].
    rewrite find_one_by_id. now f_equal.
  - intros nameless rest Hnone. rewrite seed_teachers_app, Hrun.
    cbn [seed_teachers]. unfold sbind, lift. simpl. now rewrite Hnone.
Qed.

Lemma seed_teachers_round_trip_witness :
  exists self : storage,
    seed_teachers (initial_teachers (fun password => password)) []
    = (Ok tt, self)
    /\ identities self = [KStr "mrodriguez"; KStr "mchen"; KStr "principal"]
    /\ Forall2 (fun teacher name =>
                  find_one (by_id name) self
                  = Ok (Some (dict_merge [(KStr "_id", key_value name)] teacher)))
         (initial_teachers (fun password => password))
         [KStr "mrodriguez"; KStr "mchen"; KStr "principal"]
    /\ forall (nameless : dict) (rest : list dict),
         dict_get (KStr "username") nameless = None ->
         seed_teachers
           (initial_teachers (fun password => password) ++ nameless :: rest) []
         = (Raise KeyError, self).
Proof.
  apply (seed_teachers_round_trip (initial_teachers (fun password => password))
           [KStr "mrodriguez"; KStr "mchen"; KStr "principal"]).
  - repeat constructor.
  - repeat constructor; simpl; intuition discriminate.
Defined.
